(** * imgtool: the TrackedImage facade and its vertical flip

    A shallow embedding of the Go program (package main: [TrackedImage]
    with [load], [save], [resize], [getPixels], [flipHorizontally],
    [flipVertically], [mirror]) together with the part of Go's [image],
    [image/color] and [os] packages that the program calls.

    Conventions.
    - Go [int] is a 64-bit two's complement integer: it is a [Z] and the
      subtractions the program performs are wrapped explicitly ([int_sub]).
    - A method with receiver [i *TrackedImage] is a function from the
      receiver's state to the state after the call and a [completion]
      saying how the call ended: it returned an [error] (or [nil]), the
      process was terminated by [log.Fatal], or a run-time panic occurred.
    - [image.Image] and [color.Color] are interfaces; the first is a record
      of its three methods, the second the sum of the sample types that the
      registered decoders (png, jpeg) produce. *)

From Stdlib Require Import ZArith Lia Floats.
From stdpp Require Import gmap strings list list_numbers pretty.

Local Open Scope Z_scope.
Set Warnings "-inexact-float".

(** ** Go integers *)

Module GoInt.

Definition maxInt : Z := 2 ^ 63 - 1.
Definition minInt : Z := - 2 ^ 63.

(** Two's complement wrap-around of a mathematical integer into [int]. *)
Definition wrap (z : Z) : Z := (z + 2 ^ 63) mod 2 ^ 64 - 2 ^ 63.

Definition int_sub (a b : Z) : Z := wrap (a - b).

(** Go's [/] on integers truncates toward zero. *)
Definition int_div (a b : Z) : Z := wrap (Z.quot a b).

Definition uint8 (z : Z) : Z := z mod 2 ^ 8.
Definition uint32 (z : Z) : Z := z mod 2 ^ 32.
Definition int32 (z : Z) : Z := (z + 2 ^ 31) mod 2 ^ 32 - 2 ^ 31.

(** [s[k]] on a slice: a run-time panic ([None]) outside [0 <= k < len(s)]. *)
Definition index {A} (s : list A) (k : Z) : option A :=
  if k <? 0 then None else s !! Z.to_nat k.

(** [for k, a := range s { body }] threading a state; [None] is a panic
    raised by the body. *)
Fixpoint for_range {A St} (body : Z -> A -> St -> option St)
    (k : Z) (s : list A) (st : St) : option St :=
  match s with
  | [] => Some st
  | a :: s' =>
      match body k a st with
      | Some st' => for_range body (k + 1) s' st'
      | None => None
      end
  end.

End GoInt.
Import GoInt.

(** ** Package image/color *)

Module color.

(** The sample types returned by [At] on the images that the png and jpeg
    decoders build (palette entries are [RGBA] or [NRGBA] values). *)
Inductive Color : Type :=
| RGBA (R G B A : Z)       (* 8-bit, alpha-premultiplied *)
| RGBA64 (R G B A : Z)     (* 16-bit, alpha-premultiplied *)
| NRGBA (R G B A : Z)      (* 8-bit, non-premultiplied *)
| NRGBA64 (R G B A : Z)    (* 16-bit, non-premultiplied *)
| Gray (Y : Z)
| Gray16 (Y : Z)
| YCbCr (Y Cb Cr : Z)
| CMYK (C M Y K : Z).

#[export] Instance Color_eq_dec : EqDecision Color.
Proof. solve_decision. Defined.

Definition is_RGBA (c : Color) : bool :=
  match c with RGBA _ _ _ _ => true | _ => false end.

(** [v |= v << 8] *)
Definition dup8 (v : Z) : Z := Z.lor v (Z.shiftl v 8).

(** One channel of [YCbCr.RGBA]: clamp a 24-bit fixed-point value to 16 bits. *)
Definition ycc_channel (v : Z) : Z :=
  if Z.land (uint32 v) 0xff000000 =? 0
  then Z.shiftr v 8
  else Z.land (Z.lnot (Z.shiftr v 31)) 0xffff.

(** The [RGBA()] method of the [Color] interface: alpha-premultiplied
    16-bit channels held in [uint32]s. *)
Definition Color_RGBA (c : Color) : Z * Z * Z * Z :=
  match c with
  | RGBA R G B A => (dup8 R, dup8 G, dup8 B, dup8 A)
  | RGBA64 R G B A => (R, G, B, A)
  | NRGBA R G B A =>
      (Z.quot (uint32 (dup8 R * A)) 0xff,
       Z.quot (uint32 (dup8 G * A)) 0xff,
       Z.quot (uint32 (dup8 B * A)) 0xff,
       dup8 A)
  | NRGBA64 R G B A =>
      (Z.quot (uint32 (R * A)) 0xffff,
       Z.quot (uint32 (G * A)) 0xffff,
       Z.quot (uint32 (B * A)) 0xffff,
       A)
  | Gray Y => (dup8 Y, dup8 Y, dup8 Y, 0xffff)
  | Gray16 Y => (Y, Y, Y, 0xffff)
  | YCbCr Y Cb Cr =>
      let yy1 := Y * 0x10101 in
      let cb1 := Cb - 128 in
      let cr1 := Cr - 128 in
      (uint32 (ycc_channel (int32 (yy1 + 91881 * cr1))),
       uint32 (ycc_channel (int32 (yy1 - 22554 * cb1 - 46802 * cr1))),
       uint32 (ycc_channel (int32 (yy1 + 116130 * cb1))),
       0xffff)
  | CMYK C M Y K =>
      let w := 0xffff - K * 0x101 in
      (Z.quot (uint32 ((0xffff - C * 0x101) * w)) 0xffff,
       Z.quot (uint32 ((0xffff - M * 0x101) * w)) 0xffff,
       Z.quot (uint32 ((0xffff - Y * 0x101) * w)) 0xffff,
       0xffff)
  end.

(** [color.RGBAModel.Convert]: an [RGBA] value is returned as it is, any
    other sample is reduced to the high byte of each [RGBA()] channel. *)
Definition rgbaModel (c : Color) : Color :=
  match c with
  | RGBA _ _ _ _ => c
  | _ =>
      let '(r, g, b, a) := Color_RGBA c in
      RGBA (uint8 (Z.shiftr r 8)) (uint8 (Z.shiftr g 8))
           (uint8 (Z.shiftr b 8)) (uint8 (Z.shiftr a 8))
  end.

(** The value of [ColorModel()]. *)
Inductive Model : Type :=
| RGBAModel | RGBA64Model | NRGBAModel | NRGBA64Model
| GrayModel | Gray16Model | YCbCrModel | CMYKModel
| Palette (p : list Color).

#[export] Instance Model_eq_dec : EqDecision Model.
Proof. solve_decision. Defined.

End color.
Import color.

(** ** Package image *)

Module image.

Record Point : Type := Pt { X : Z; Y : Z }.

#[export] Instance Point_eq_dec : EqDecision Point.
Proof. solve_decision. Defined.

Record Rectangle : Type := Rect_ { Min : Point; Max : Point }.

#[export] Instance Rectangle_eq_dec : EqDecision Rectangle.
Proof. solve_decision. Defined.

Definition Dx (r : Rectangle) : Z := int_sub (X (Max r)) (X (Min r)).
Definition Dy (r : Rectangle) : Z := int_sub (Y (Max r)) (Y (Min r)).

(** [r.Size()] *)
Definition Size (r : Rectangle) : Point := Pt (Dx r) (Dy r).

(** [Point{x, y}.In(r)] *)
Definition In (x y : Z) (r : Rectangle) : bool :=
  (X (Min r) <=? x) && (x <? X (Max r)) && (Y (Min r) <=? y) && (y <? Y (Max r)).

(** The [image.Image] interface. *)
Record Image : Type := {
  ColorModel : Model;
  Bounds : Rectangle;
  At : Z -> Z -> Color
}.

(** [*image.RGBA]: a rectangle of 8-bit RGBA samples.  The byte buffer
    ([Pix], [Stride]) is kept abstract as a finite map from the points
    that were written to their four channel bytes; a point never written
    reads as zero, as in a freshly made buffer. *)
Record RGBAImage : Type := {
  Pix : gmap (Z * Z) (Z * Z * Z * Z);
  Rect : Rectangle
}.

(** [image.NewRGBA(r)] panics ([None]) when the rectangle has a negative
    side or [4 * Dx * Dy] does not fit in an [int]. *)
Definition NewRGBA (r : Rectangle) : option RGBAImage :=
  if (Dx r <? 0) || (Dy r <? 0) || (maxInt <? 4 * Dx r * Dy r)
  then None
  else Some {| Pix := ∅; Rect := r |}.

(** [p.RGBAAt(x, y)] and [p.At(x, y)]: the zero colour outside [p.Rect]. *)
Definition RGBAAt (p : RGBAImage) (x y : Z) : Color :=
  if In x y (Rect p) then
    match Pix p !! (x, y) with
    | Some (r, g, b, a) => RGBA r g b a
    | None => RGBA 0 0 0 0
    end
  else RGBA 0 0 0 0.

(** [p.Set(x, y, c)]: nothing outside [p.Rect]; inside, the sample is
    converted by [color.RGBAModel] and stored. *)
Definition Set_ (p : RGBAImage) (x y : Z) (c : Color) : RGBAImage :=
  if In x y (Rect p) then
    match rgbaModel c with
    | RGBA r g b a => {| Pix := <[(x, y) := (r, g, b, a)]> (Pix p); Rect := Rect p |}
    | _ => p
    end
  else p.

(** An [*image.RGBA] seen through the [image.Image] interface. *)
Definition RGBA_Image (p : RGBAImage) : Image :=
  {| ColorModel := RGBAModel; Bounds := Rect p; At := RGBAAt p |}.

End image.
Import image.

(** ** Errors and the ways a call can end *)

Inductive error : Type :=
| errorString (msg : string)             (* errors.New, fmt.Errorf *)
| PathError (op path msg : string)       (* *fs.PathError from package os *)
| CodecError (msg : string).             (* errors of image.Decode, png and jpeg *)

#[export] Instance error_eq_dec : EqDecision error.
Proof. solve_decision. Defined.

Inductive completion : Type :=
| Return (err : option error)            (* the method returned [err] *)
| Fatal (err : error)                    (* log.Fatal(err): the process exits *)
| Panic.                                 (* a run-time panic *)

#[export] Instance completion_eq_dec : EqDecision completion.
Proof. solve_decision. Defined.

(** The error values the program builds itself. *)
Definition NoImageLoaded : error :=
  errorString "no image data, you must load the image first".
Definition NotImplemented : error :=
  errorString "horizontal flipping has not been implemented yet".
Definition InvalidModifier : error :=
  errorString "unsupported image resize modifier".
Definition UnsupportedFormat (format : string) : error :=
  errorString ("unsupported format: " +:+ format).

(** ** TrackedImage *)

Record TrackedImage : Type := {
  filepath : string;
  format : string;
  data : option Image          (* [None] is the nil interface value *)
}.

(** [TrackedImage{}] *)
Definition zero_TrackedImage : TrackedImage :=
  {| filepath := ""; format := ""; data := None |}.

Definition set_data (i : TrackedImage) (d : Image) : TrackedImage :=
  {| filepath := filepath i; format := format i; data := Some d |}.

Definition resize (i : TrackedImage) (modifier : float) : TrackedImage * completion :=
  if (PrimFloat.leb modifier 0.1 ||
      (PrimFloat.ltb 1.00 modifier && PrimFloat.ltb modifier 1.01))%bool
  then (i, Return (Some InvalidModifier))
  else (i, Return None).

Definition getPixels (i : TrackedImage) : list (list Color) :=
  match data i with
  | None => []
  | Some d =>
      let size := Size (Bounds d) in
      (fun x => (fun y => At d x y) <$> seqZ 0 (Y size)) <$> seqZ 0 (X size)
  end.

Definition flipHorizontally (i : TrackedImage) : TrackedImage * completion :=
  (i, Return (Some NotImplemented)).

(** The body of the inner loop of [flipVertically], at column [x], row [y]. *)
Definition flip_cell (bounds : Point) (pixels : list (list Color))
    (x y : Z) (pixel : Color) (rgba : RGBAImage) : option RGBAImage :=
  if int_div (Y bounds) 2 <? y then Some rgba
  else
    let inverseCoordinate := int_sub (int_sub (Y bounds) y) 1 in
    row ← index pixels x;
    inverse ← index row inverseCoordinate;
    Some (Set_ (Set_ rgba x y inverse) x inverseCoordinate pixel).

Definition flip_loop (bounds : Point) (pixels : list (list Color))
    (rgba : RGBAImage) : option RGBAImage :=
  for_range (fun x row => for_range (flip_cell bounds pixels x) 0 row) 0 pixels rgba.

Definition flipVertically (i : TrackedImage) : TrackedImage * completion :=
  match data i with
  | None => (i, Return (Some NoImageLoaded))
  | Some d =>
      let rect := Bounds d in
      match NewRGBA rect with
      | None => (i, Panic)
      | Some rgba =>
          let pixels := getPixels i in
          let bounds := Max (Bounds d) in
          match flip_loop bounds pixels rgba with
          | None => (i, Panic)
          | Some rgba' => (set_data i (RGBA_Image rgba'), Return None)
          end
      end
  end.

Definition mirror (i : TrackedImage) : TrackedImage * completion :=
  match flipVertically i with
  | (i1, Return None) =>
      match flipHorizontally i1 with
      | (i2, Return None) => (i2, Return None)
      | (i2, c) => (i2, c)
      end
  | (i1, c) => (i1, c)
  end.

(** ** The host: files, decoders and encoders

    The program reaches the outside through [os.Open], [os.Create],
    [file.Close], [image.Decode], [png.Encode] and [jpeg.Encode].  The file
    system is a finite map from paths to contents; what the host decides
    (which calls fail, how bytes decode and images encode) is a [Host]. *)

Abbreviation FS := (gmap string (list Byte.byte)).

Record Host : Type := {
  open_err : string -> option error;      (* os.Open fails although the file exists *)
  create_err : string -> option error;    (* os.Create fails *)
  close_err : string -> option error;     (* file.Close fails *)
  image_Decode : list Byte.byte -> error + Image * string;
  png_Encode : Image -> list Byte.byte * option error;
  jpeg_Encode : Image -> list Byte.byte * option error
}.

(** [os.Open(path)]: the content readable through the handle. *)
Definition os_Open (h : Host) (fs : FS) (path : string) : error + list Byte.byte :=
  match open_err h path with
  | Some err => inl err
  | None =>
      match fs !! path with
      | Some content => inr content
      | None => inl (PathError "open" path "no such file or directory")
      end
  end.

(** [os.Create(path)] creates the file or truncates it when it exists. *)
Definition os_Create (h : Host) (fs : FS) (path : string) : error + FS :=
  match create_err h path with
  | Some err => inl err
  | None => inr (<[path := []]> fs)
  end.

(** The deferred [file.Close()]: [log.Fatal] when closing fails, whatever the
    function was about to do; otherwise the function ends as [c]. *)
Definition deferred_Close (h : Host) (path : string) (c : completion) : completion :=
  match close_err h path with
  | Some err => Fatal err
  | None => c
  end.

Definition load (h : Host) (fs : FS) (i : TrackedImage) (path : string)
    : TrackedImage * completion :=
  match os_Open h fs path with
  | inl err => (i, Return (Some err))
  | inr content =>
      match image_Decode h content with
      | inl err => (i, deferred_Close h path (Return (Some err)))
      | inr (decodedImage, fmt) =>
          ({| filepath := path; format := fmt; data := Some decodedImage |},
           deferred_Close h path (Return None))
      end
  end.

(** [enc(file, i.data)]: the method call [m.Bounds()] inside the encoder
    panics on a nil image; otherwise the bytes produced reach the file. *)
Definition encode_to (enc : Image -> list Byte.byte * option error)
    (fs : FS) (path : string) (d : option Image) : FS * completion :=
  match d with
  | None => (fs, Panic)
  | Some m => let '(bytes, err) := enc m in (<[path := bytes]> fs, Return err)
  end.

Definition save (h : Host) (fs : FS) (i : TrackedImage) (path : option string)
    : TrackedImage * FS * completion :=
  let path := match path with None => filepath i | Some p => p end in
  match os_Create h fs path with
  | inl err => (i, fs, Return (Some err))
  | inr fs1 =>
      let '(fs2, c) :=
        if decide (format i = "png") then encode_to (png_Encode h) fs1 path (data i)
        else if decide (format i = "jpeg") then encode_to (jpeg_Encode h) fs1 path (data i)
        else (fs1, Return (Some (UnsupportedFormat (format i)))) in
      (i, fs2, deferred_Close h path c)
  end.

(** The images [image.Decode] returns with the png and jpeg decoders
    registered have bounds anchored at the origin and a width and height
    (positive for these decoders) for which an RGBA buffer can be
    allocated: [Max.X], [Max.Y] and four times their product are [int]s. *)
Definition decoded (d : Image) : Prop :=
  Min (Bounds d) = Pt 0 0 /\
  0 <= X (Max (Bounds d)) <= maxInt /\ 0 <= Y (Max (Bounds d)) <= maxInt /\
  4 * X (Max (Bounds d)) * Y (Max (Bounds d)) <= maxInt.

(** A host whose decoder returns such images only. *)
Definition decoder_at_origin (h : Host) : Prop :=
  forall content d fmt, image_Decode h content = inr (d, fmt) -> decoded d.

Definition width (d : Image) : Z := Dx (Bounds d).
Definition height (d : Image) : Z := Dy (Bounds d).

(** ** The program's entry point *)

(** [fmt.Println(args...)]: the operands separated by spaces; a line of the
    standard output, without its newline. *)
Definition Println (args : list string) : string := String.concat " " args.

(** [fmt.Sprintf("%dx%d", a, b)] *)
Definition Sprintf_dxd (a b : Z) : string := pretty a +:+ "x" +:+ pretty b.

(** [main]: the file system after the run, the lines printed and how the
    process ended ([Return None] is the normal exit; an error returned by a
    method is passed to [log.Fatal]). *)
Definition main (h : Host) (fs : FS) : FS * list string * completion :=
  match load h fs zero_TrackedImage "ss.png" with
  | (img, Return (Some err)) => (fs, [], Fatal err)
  | (img, Return None) =>
      let out := [Println ["Loaded image:"; filepath img];
                  Println ["Format:"; format img]] in
      match data img with
      | None => (fs, out, Panic)
      | Some d =>
          let rec := Bounds d in
          let res := Sprintf_dxd (X (Max rec)) (Y (Max rec)) in
          let out := out ++ [Println ["Resolution:"; res]] in
          match flipVertically img with
          | (img, Return (Some err)) => (fs, out, Fatal err)
          | (img, Return None) =>
              let out := out ++ ["Vertically flipped image successfully"] in
              match save h fs img (Some "ss_1.png") with
              | (_, fs, Return (Some err)) => (fs, out, Fatal err)
              | (_, fs, Return None) =>
                  (fs, out ++ [Println ["Saved image:"; "ss_1.png"];
                               "All commands executed"], Return None)
              | (_, fs, c) => (fs, out, c)
              end
          | (_, c) => (fs, out, c)
          end
      end
  | (_, c) => (fs, [], c)
  end.

(** ** The earlier revision of the program (main.go)

    [TrackedImage], [load], [save] and [getPixels] are the same there; the
    flip is a single method [flip(vertical bool)] whose loop has no skip
    condition, [resize] takes a [uint] and does nothing, and [main] saves a
    JPEG. *)

Module main_go.

Definition VerticalNotImplemented : error :=
  errorString "vertical flipping has not been implemented yet".

Definition resize (i : TrackedImage) (modifier : Z) : TrackedImage * completion :=
  (i, Return None).

(** The body of the inner loop of [flip], at column [x], row [y]. *)
Definition flip_cell (bounds : Point) (pixels : list (list Color))
    (x y : Z) (pixel : Color) (rgba : RGBAImage) : option RGBAImage :=
  let inverseCoordinate := int_sub (int_sub (Y bounds) y) 1 in
  row ← index pixels x;
  inverse ← index row inverseCoordinate;
  Some (Set_ (Set_ rgba x y inverse) x inverseCoordinate pixel).

Definition flip_loop (bounds : Point) (pixels : list (list Color))
    (rgba : RGBAImage) : option RGBAImage :=
  for_range (fun x row => for_range (flip_cell bounds pixels x) 0 row) 0 pixels rgba.

Definition flip (i : TrackedImage) (vertical : bool) : TrackedImage * completion :=
  if vertical then (i, Return (Some VerticalNotImplemented))
  else
    match data i with
    | None => (i, Return (Some NoImageLoaded))
    | Some d =>
        let rect := Bounds d in
        match NewRGBA rect with
        | None => (i, Panic)
        | Some rgba =>
            let pixels := getPixels i in
            let bounds := Max (Bounds d) in
            match flip_loop bounds pixels rgba with
            | None => (i, Panic)
            | Some rgba' => (set_data i (RGBA_Image rgba'), Return None)
            end
        end
    end.

Definition main (h : Host) (fs : FS) : FS * list string * completion :=
  match load h fs zero_TrackedImage "ss.png" with
  | (img, Return (Some err)) => (fs, [], Fatal err)
  | (img, Return None) =>
      let out := [Println ["Loaded image:"; filepath img];
                  Println ["Format:"; format img]] in
      match data img with
      | None => (fs, out, Panic)
      | Some d =>
          let rec := Bounds d in
          let res := Sprintf_dxd (X (Max rec)) (Y (Max rec)) in
          let out := out ++ [Println ["Resolution:"; res]] in
          match flip img false with
          | (img, Return (Some err)) => (fs, out, Fatal err)
          | (img, Return None) =>
              let out := out ++ ["Flipped image successfully"] in
              let img := {| filepath := filepath img; format := "jpeg"; data := data img |} in
              match save h fs img (Some "ss_1.jpg") with
              | (_, fs, Return (Some err)) => (fs, out, Fatal err)
              | (_, fs, Return None) =>
                  (fs, out ++ [Println ["Saved image:"; "ss_1.jpg"];
                               "All commands executed"], Return None)
              | (_, fs, c) => (fs, out, c)
              end
          | (_, c) => (fs, out, c)
          end
      end
  | (_, c) => (fs, [], c)
  end.

End main_go.

(** [n] calls of [flipVertically] in a row: the state after them. *)
Definition flips (n : nat) (i : TrackedImage) : TrackedImage :=
  Nat.iter n (fun s => fst (flipVertically s)) i.

(** * Properties *)

(** ** Integers and loops *)

Lemma wrap_small z : minInt <= z <= maxInt -> wrap z = z.
Proof.
  unfold wrap, minInt, maxInt. intros Hz.
  rewrite Z.mod_small; lia.
Qed.

Lemma int_sub_small a b : minInt <= a - b <= maxInt -> int_sub a b = a - b.
Proof. apply wrap_small. Qed.

Lemma int_div_2 a : 0 <= a <= maxInt -> int_div a 2 = a / 2.
Proof.
  intros Ha. unfold int_div.
  rewrite Z.quot_div_nonneg by lia.
  apply wrap_small. unfold minInt, maxInt in *.
  assert (0 <= a / 2 <= a) by (split; [apply Z.div_pos | apply Z.div_le_upper_bound]; lia).
  lia.
Qed.

Lemma index_Some {A} (s : list A) (k : nat) a :
  s !! k = Some a -> index s (Z.of_nat k) = Some a.
Proof.
  intros Hk. unfold index.
  destruct (Z.ltb_spec (Z.of_nat k) 0); [lia |].
  by rewrite Nat2Z.id.
Qed.

(** A loop invariant rule for [for_range]: an invariant indexed by the loop
    counter, kept by every iteration, holds at the end, and no iteration
    panics. *)
Lemma for_range_inv {A St} (body : Z -> A -> St -> option St)
    (Inv : Z -> St -> Prop) (s : list A) :
  forall k0 st,
    (forall (j : nat) a st1, s !! j = Some a -> Inv (k0 + Z.of_nat j) st1 ->
       exists st2, body (k0 + Z.of_nat j) a st1 = Some st2 /\
                   Inv (k0 + Z.of_nat j + 1) st2) ->
    Inv k0 st ->
    exists st', for_range body k0 s st = Some st' /\
                Inv (k0 + Z.of_nat (length s)) st'.
Proof.
  induction s as [|a s IH]; intros k0 st Hbody Hinv; simpl.
  - exists st. split; [done |]. by rewrite Z.add_0_r.
  - destruct (Hbody 0%nat a st) as (st1 & Hst1 & Hinv1).
    + done.
    + by rewrite Z.add_0_r.
    + change (Z.of_nat 0) with 0 in *. rewrite Z.add_0_r in *. rewrite Hst1.
      destruct (IH (k0 + 1) st1) as (st' & Hrun & Hend).
      * intros j b st2 Hj Hst2.
        replace (k0 + 1 + Z.of_nat j) with (k0 + Z.of_nat (S j)) in * by lia.
        by apply Hbody.
      * done.
      * exists st'. split; [done |].
        by replace (k0 + Z.of_nat (S (length s))) with (k0 + 1 + Z.of_nat (length s)) by lia.
Qed.

(** ** Reading and writing an RGBA image *)

Lemma rgbaModel_RGBA c : is_RGBA (rgbaModel c) = true.
Proof. destruct c; simpl; try done; by repeat case_match. Qed.

Lemma rgbaModel_id c : is_RGBA c = true -> rgbaModel c = c.
Proof. by destruct c. Qed.

Lemma rgbaModel_idemp c : rgbaModel (rgbaModel c) = rgbaModel c.
Proof. apply rgbaModel_id, rgbaModel_RGBA. Qed.

Lemma Set_Rect p x y c : Rect (Set_ p x y c) = Rect p.
Proof. unfold Set_. by repeat case_match. Qed.

Lemma RGBAAt_Set_eq p x y c :
  In x y (Rect p) = true -> RGBAAt (Set_ p x y c) x y = rgbaModel c.
Proof.
  intros Hin. unfold RGBAAt. rewrite Set_Rect, Hin.
  unfold Set_. rewrite Hin.
  pose proof (rgbaModel_RGBA c) as Hc.
  destruct (rgbaModel c); try done.
  simpl. by rewrite lookup_insert_eq.
Qed.

Lemma RGBAAt_Set_ne p x y c x' y' :
  (x, y) <> (x', y') -> RGBAAt (Set_ p x y c) x' y' = RGBAAt p x' y'.
Proof.
  intros Hne. unfold RGBAAt. rewrite Set_Rect.
  destruct (In x' y' (Rect p)); [| done].
  unfold Set_. destruct (In x y (Rect p)); [| done].
  destruct (rgbaModel c); try done.
  simpl. by rewrite lookup_insert_ne.
Qed.

Lemma RGBAAt_is_RGBA p x y : is_RGBA (RGBAAt p x y) = true.
Proof. unfold RGBAAt. by repeat case_match. Qed.

(** ** The vertical flip of a decoded image *)

(** The sample a vertical flip must put at [(x, y)]: the sample of the row
    mirrored across the horizontal midline, as [Set] stores it. *)
Definition flipped (d : Image) (x y : Z) : Color :=
  rgbaModel (At d x (Y (Max (Bounds d)) - 1 - y)).

Section Flip.

Variable d : Image.
Hypothesis Hd : decoded d.

Let W := X (Max (Bounds d)).
Let H := Y (Max (Bounds d)).

(** [p] already holds the flipped sample at [(x, y)]. *)
Let agree (p : RGBAImage) (x y : Z) : Prop := RGBAAt p x y = flipped d x y.

Lemma decoded_range : 0 <= W <= maxInt /\ 0 <= H <= maxInt.
Proof. destruct Hd as (_ & HW & HH & _). by fold W H in HW, HH. Qed.

Lemma decoded_Size : Size (Bounds d) = Pt W H.
Proof.
  pose proof decoded_range as Hr. destruct Hd as (HMin & _).
  unfold Size, Dx, Dy. rewrite HMin. simpl. fold W H.
  rewrite !int_sub_small; unfold minInt, maxInt in *; [| lia | lia].
  by rewrite !Z.sub_0_r.
Qed.

Lemma decoded_NewRGBA :
  NewRGBA (Bounds d) = Some {| Pix := ∅; Rect := Bounds d |}.
Proof.
  pose proof decoded_range as Hr. pose proof decoded_Size as Hs.
  destruct Hd as (_ & _ & _ & Hfit). fold W H in Hfit.
  unfold NewRGBA. injection Hs as -> ->.
  destruct (Z.ltb_spec W 0); [lia |].
  destruct (Z.ltb_spec H 0); [lia |].
  destruct (Z.ltb_spec maxInt (4 * W * H)); [lia | done].
Qed.

Lemma decoded_In x y :
  0 <= x < W -> 0 <= y < H -> In x y (Bounds d) = true.
Proof.
  intros Hx Hy. destruct Hd as (HMin & _).
  unfold In. rewrite HMin. simpl. fold W H.
  repeat (apply andb_true_intro; split); lia.
Qed.

Lemma decoded_getPixels (i : TrackedImage) :
  data i = Some d ->
  getPixels i = (fun x => At d x <$> seqZ 0 H) <$> seqZ 0 W.
Proof. intros Hi. unfold getPixels. by rewrite Hi, decoded_Size. Qed.

(** One [Set] of a flipped sample keeps every pixel that already agrees. *)
Lemma Set_agree p x0 y0 c :
  Rect p = Bounds d -> 0 <= x0 < W -> 0 <= y0 < H ->
  rgbaModel c = flipped d x0 y0 ->
  agree (Set_ p x0 y0 c) x0 y0 /\
  forall x y, agree p x y -> agree (Set_ p x0 y0 c) x y.
Proof.
  intros Hrect Hx Hy Hc. unfold agree.
  assert (RGBAAt (Set_ p x0 y0 c) x0 y0 = flipped d x0 y0) as Hhere.
  { rewrite RGBAAt_Set_eq; [done |]. rewrite Hrect. by apply decoded_In. }
  split; [done |]. intros x y Hxy.
  destruct (decide ((x0, y0) = (x, y))) as [[= <- <-] | Hne]; [done |].
  by rewrite RGBAAt_Set_ne.
Qed.

Let pixels : list (list Color) := (fun x => At d x <$> seqZ 0 H) <$> seqZ 0 W.

(** The inner loop on column [x]: afterwards the whole column agrees. *)
Lemma flip_column x p0 :
  0 <= x < W -> Rect p0 = Bounds d ->
  exists p1,
    for_range (flip_cell (Max (Bounds d)) pixels x) 0 (At d x <$> seqZ 0 H) p0 = Some p1 /\
    Rect p1 = Bounds d /\
    (forall x' y', agree p0 x' y' -> agree p1 x' y') /\
    (forall y, 0 <= y < H -> agree p1 x y).
Proof.
  intros Hx Hrect0. pose proof decoded_range as Hr.
  set (Inv := fun (k : Z) (p : RGBAImage) =>
    Rect p = Bounds d /\
    (forall x' y', agree p0 x' y' -> agree p x' y') /\
    (forall y, 0 <= y < k -> y <= H / 2 ->
       agree p x y /\ agree p x (H - 1 - y))).
  destruct (for_range_inv (flip_cell (Max (Bounds d)) pixels x) Inv
              (At d x <$> seqZ 0 H) 0 p0) as (p1 & Hrun & Hrect & Hmono & Hdone).
  - intros j a p Hj (Hrect & Hmono & Hdone). rewrite Z.add_0_l.
    rewrite list_lookup_fmap in Hj.
    destruct (seqZ 0 H !! j) as [y |] eqn:Hy; [| done].
    apply lookup_seqZ in Hy as [-> Hlt]. injection Hj as <-.
    rewrite Z.add_0_l in *.
    unfold flip_cell. fold H. rewrite int_div_2 by lia.
    destruct (Z.ltb_spec (H / 2) (Z.of_nat j)) as [Hskip | Hhalf].
    + exists p. split; [done |]. split; [done |]. split; [done |].
      intros y Hy Hyhalf. apply Hdone; lia.
    + rewrite (int_sub_small H (Z.of_nat j)) by (unfold minInt, maxInt in *; lia).
      rewrite (int_sub_small (H - Z.of_nat j) 1) by (unfold minInt, maxInt in *; lia).
      assert (index pixels x = Some (At d x <$> seqZ 0 H)) as ->.
      { rewrite <- (Z2Nat.id x) at 1 by lia. apply index_Some.
        unfold pixels. rewrite list_lookup_fmap.
        rewrite lookup_seqZ_lt by lia.
        simpl. by rewrite Z2Nat.id by lia. }
      simpl.
      assert (index (At d x <$> seqZ 0 H) (H - Z.of_nat j - 1)
              = Some (At d x (H - 1 - Z.of_nat j))) as ->.
      { rewrite <- (Z2Nat.id (H - Z.of_nat j - 1)) at 1 by lia. apply index_Some.
        rewrite list_lookup_fmap.
        rewrite lookup_seqZ_lt by lia.
        simpl. f_equal. f_equal. lia. }
      simpl. eexists. split; [done |].
      destruct (Set_agree p x (Z.of_nat j) (At d x (H - 1 - Z.of_nat j)))
        as [Hfirst Hkeep1]; [done | lia | lia | done |].
      set (p' := Set_ p x (Z.of_nat j) (At d x (H - 1 - Z.of_nat j))) in *.
      destruct (Set_agree p' x (H - Z.of_nat j - 1) (At d x (Z.of_nat j)))
        as [Hsecond Hkeep2].
      { unfold p'. by rewrite Set_Rect. }
      { lia. }
      { lia. }
      { unfold flipped. fold H. f_equal. f_equal. lia. }
      split; [rewrite Set_Rect; unfold p'; by rewrite Set_Rect |].
      split; [intros x' y' Hxy; by apply Hkeep2, Hkeep1, Hmono |].
      intros y Hy Hyhalf.
      destruct (decide (y = Z.of_nat j)) as [-> | Hne].
      * split; [by apply Hkeep2 |].
        by replace (H - 1 - Z.of_nat j) with (H - Z.of_nat j - 1) by lia.
      * destruct (Hdone y) as [Hy1 Hy2]; [lia | lia |].
        split; by apply Hkeep2, Hkeep1.
  - split; [done |]. split; [done |]. intros y Hy. lia.
  - exists p1. split; [done |]. split; [done |]. split; [done |].
    rewrite Z.add_0_l, length_fmap, length_seqZ, Z2Nat.id in Hdone by lia.
    intros y Hy.
    destruct (Z.le_gt_cases y (H / 2)) as [Hle | Hgt].
    + by apply Hdone.
    + pose proof (Z.div_mod H 2 ltac:(lia)) as Hdiv.
      pose proof (Z.mod_pos_bound H 2 ltac:(lia)) as Hmod.
      destruct (Hdone (H - 1 - y)) as [_ Hinv]; [lia | lia |].
      by replace (H - 1 - (H - 1 - y)) with y in Hinv by lia.
Qed.

(** The two nested loops: every pixel of the rectangle agrees. *)
Lemma flip_loop_decoded p0 :
  Rect p0 = Bounds d ->
  exists p1,
    flip_loop (Max (Bounds d)) pixels p0 = Some p1 /\
    Rect p1 = Bounds d /\
    (forall x y, 0 <= x < W -> 0 <= y < H -> agree p1 x y).
Proof.
  intros Hrect0. pose proof decoded_range as Hr.
  set (Inv := fun (k : Z) (p : RGBAImage) =>
    Rect p = Bounds d /\
    (forall x y, 0 <= x < k -> 0 <= y < H -> agree p x y)).
  unfold flip_loop.
  destruct (for_range_inv
              (fun x row => for_range (flip_cell (Max (Bounds d)) pixels x) 0 row)
              Inv pixels 0 p0) as (p1 & Hrun & Hrect & Hdone).
  - intros j row p Hj (Hrect & Hdone). rewrite Z.add_0_l.
    unfold pixels in Hj. rewrite list_lookup_fmap in Hj.
    destruct (seqZ 0 W !! j) as [x |] eqn:Hx; [| done].
    apply lookup_seqZ in Hx as [-> Hlt]. injection Hj as <-.
    rewrite Z.add_0_l.
    destruct (flip_column (Z.of_nat j) p) as (p1 & Hrun & Hrect1 & Hmono & Hcol);
      [lia | done |].
    exists p1. split; [done |]. split; [done |].
    intros x y Hx Hy.
    destruct (decide (x = Z.of_nat j)) as [-> | Hne].
    + by apply Hcol.
    + apply Hmono, Hdone; lia.
  - split; [done |]. intros x y Hx. lia.
  - exists p1. split; [done |]. split; [done |].
    unfold pixels in Hdone.
    by rewrite Z.add_0_l, length_fmap, length_seqZ, Z2Nat.id in Hdone by lia.
Qed.

(** [flipVertically] on a state holding [d]: it returns [nil] and the new
    image has the bounds of [d] and the flipped samples. *)
Lemma flipVertically_decoded (i : TrackedImage) :
  data i = Some d ->
  exists p,
    flipVertically i = (set_data i (RGBA_Image p), Return None) /\
    Rect p = Bounds d /\
    (forall x y, 0 <= x < W -> 0 <= y < H -> RGBAAt p x y = flipped d x y).
Proof.
  intros Hi. unfold flipVertically.
  rewrite Hi, decoded_NewRGBA, (decoded_getPixels i Hi).
  destruct (flip_loop_decoded {| Pix := ∅; Rect := Bounds d |})
    as (p & Hrun & Hrect & Hall); [done |].
  fold pixels. rewrite Hrun. by exists p.
Qed.

End Flip.

(** ** Facts shared by the claims about [flipVertically] *)

Lemma decoded_width_height d :
  decoded d -> width d = X (Max (Bounds d)) /\ height d = Y (Max (Bounds d)).
Proof.
  intros Hd. pose proof (decoded_Size d Hd) as Hs.
  unfold width, height. unfold Size in Hs. by injection Hs as -> ->.
Qed.

Lemma decoded_RGBA_Image d p :
  decoded d -> Rect p = Bounds d -> decoded (RGBA_Image p).
Proof. intros Hd Hrect. unfold decoded. simpl. by rewrite Hrect. Qed.

(** The sample of a state's image at [(x, y)], when an image is loaded. *)
Definition sample_at (i : TrackedImage) (x y : Z) : option Color :=
  (fun d => At d x y) <$> data i.

(** An image given by its columns ([cols !! x !! y] is the sample at
    [(x, y)]), with bounds anchored at the origin; [zero] is what [At]
    returns outside the bounds. *)
Definition columns_Image (m : Model) (zero : Color) (cols : list (list Color)) : Image :=
  let r := Rect_ (Pt 0 0)
             (Pt (Z.of_nat (length cols)) (Z.of_nat (length (default [] (head cols))))) in
  {| ColorModel := m;
     Bounds := r;
     At := fun x y =>
       if In x y r
       then default zero (col ← cols !! Z.to_nat x; col !! Z.to_nat y)
       else zero |}.

Definition loaded_png (d : Image) : TrackedImage :=
  {| filepath := "ss.png"; format := "png"; data := Some d |}.

(** A 16-bit PNG of one column and three rows. *)
Definition deep16 : Image :=
  columns_Image RGBA64Model (RGBA64 0 0 0 0)
    [[RGBA64 0x1234 0 0 0xffff; RGBA64 0x5678 0 0 0xffff; RGBA64 0x9abc 0 0 0xffff]].

(** An 8-bit PNG with an alpha channel, one pixel. *)
Definition translucent : Image :=
  columns_Image NRGBAModel (NRGBA 0 0 0 0) [[NRGBA 100 0 0 100]].

(** An 8-bit truecolour PNG without alpha, one column and two rows. *)
Definition opaque2 : Image :=
  columns_Image RGBAModel (RGBA 0 0 0 0) [[RGBA 1 2 3 255; RGBA 4 5 6 255]].

(** A 16-bit greyscale PNG, two columns and two rows. *)
Definition gray2x2 : Image :=
  columns_Image Gray16Model (Gray16 0)
    [[Gray16 0x0102; Gray16 0x0304]; [Gray16 0x0506; Gray16 0x0708]].

(** [decoded] on a concrete image is settled by evaluation. *)
Ltac decoded_by_evaluation :=
  unfold decoded; repeat split; vm_compute; (reflexivity || discriminate).

Lemma decoded_deep16 : decoded deep16.
Proof. decoded_by_evaluation. Qed.

Lemma decoded_translucent : decoded translucent.
Proof. decoded_by_evaluation. Qed.

Lemma decoded_opaque2 : decoded opaque2.
Proof. decoded_by_evaluation. Qed.

Lemma decoded_gray2x2 : decoded gray2x2.
Proof. decoded_by_evaluation. Qed.

(** A state produced by a successful [load] holds a decoded image, on a
    host whose decoder returns images anchored at the origin. *)
Lemma load_decoded (h : Host) (fs : FS) (i i' : TrackedImage) (path : string) :
  decoder_at_origin h ->
  load h fs i path = (i', Return None) ->
  exists d, data i' = Some d /\ decoded d /\ filepath i' = path.
Proof.
  intros Hdec. unfold load, deferred_Close.
  destruct (os_Open h fs path) as [err | content]; [congruence |].
  destruct (image_Decode h content) as [err | [d fmt]] eqn:Himg;
    destruct (close_err h path); try congruence.
  intros [= <-]. exists d. split; [done |]. split; [by eapply Hdec | done].
Qed.

(** The skip condition on small heights: with four rows the rows 0, 1 and 2
    are processed (the pair of middle rows twice), with three rows the rows
    0 and 1; each time the column comes out reversed. *)
Example flipVertically_four_rows :
  getPixels (fst (flipVertically (loaded_png
    (columns_Image RGBAModel (RGBA 0 0 0 0)
       [[RGBA 1 0 0 255; RGBA 2 0 0 255; RGBA 3 0 0 255; RGBA 4 0 0 255]]))))
  = [[RGBA 4 0 0 255; RGBA 3 0 0 255; RGBA 2 0 0 255; RGBA 1 0 0 255]].
Proof. by vm_compute. Qed.

Example flipVertically_three_rows :
  getPixels (fst (flipVertically (loaded_png
    (columns_Image RGBAModel (RGBA 0 0 0 0)
       [[RGBA 1 0 0 255; RGBA 2 0 0 255; RGBA 3 0 0 255]]))))
  = [[RGBA 3 0 0 255; RGBA 2 0 0 255; RGBA 1 0 0 255]].
Proof. by vm_compute. Qed.

(** ** C1: flipping twice *)

(** C1 (as stated, refuted): on the 16-bit image [deep16] both flips return
    [nil], yet the sample at (0, 0) after the two flips is the 8-bit value
    [RGBA 0x12 0 0 0xff], not the original [RGBA64 0x1234 0 0 0xffff]. *)
Lemma flipVertically_twice_not_identical :
  decoded deep16 /\
  snd (flipVertically (loaded_png deep16)) = Return None /\
  snd (flipVertically (fst (flipVertically (loaded_png deep16)))) = Return None /\
  sample_at (loaded_png deep16) 0 0 = Some (RGBA64 0x1234 0 0 0xffff) /\
  sample_at (fst (flipVertically (fst (flipVertically (loaded_png deep16))))) 0 0
    = Some (RGBA 0x12 0 0 0xff) /\
  sample_at (fst (flipVertically (fst (flipVertically (loaded_png deep16))))) 0 0
    <> sample_at (loaded_png deep16) 0 0.
Proof.
  split; [apply decoded_deep16 |].
  vm_compute. repeat split; discriminate.
Qed.

(** C1 (amended): for a loaded image, two calls of [flipVertically] both
    return [nil]; the result has the bounds (so the width and height) of the
    original and its sample at every coordinate of the rectangle is the
    RGBA conversion of the original sample, hence the original sample
    itself wherever that sample is an RGBA value. *)
Theorem flipVertically_twice (i : TrackedImage) (d : Image) :
  data i = Some d -> decoded d ->
  exists i1 i2 d2,
    flipVertically i = (i1, Return None) /\
    flipVertically i1 = (i2, Return None) /\
    data i2 = Some d2 /\
    Bounds d2 = Bounds d /\ width d2 = width d /\ height d2 = height d /\
    forall x y, 0 <= x < width d -> 0 <= y < height d ->
      At d2 x y = rgbaModel (At d x y) /\
      (is_RGBA (At d x y) = true -> At d2 x y = At d x y).
Proof.
  intros Hi Hd.
  destruct (decoded_width_height d Hd) as [HW HH].
  destruct (flipVertically_decoded d Hd i Hi) as (p1 & Hrun1 & Hrect1 & Hpix1).
  pose proof (decoded_RGBA_Image d p1 Hd Hrect1) as Hd1.
  destruct (flipVertically_decoded (RGBA_Image p1) Hd1
              (set_data i (RGBA_Image p1)) eq_refl) as (p2 & Hrun2 & Hrect2 & Hpix2).
  simpl in Hrect2, Hpix2. rewrite Hrect1 in Hrect2, Hpix2.
  exists (set_data i (RGBA_Image p1)),
         (set_data (set_data i (RGBA_Image p1)) (RGBA_Image p2)),
         (RGBA_Image p2).
  split; [done |]. split; [done |]. split; [done |].
  split; [done |].
  split; [unfold width; simpl; by rewrite Hrect2 |].
  split; [unfold height; simpl; by rewrite Hrect2 |].
  intros x y Hx Hy. rewrite HW in Hx. rewrite HH in Hy.
  assert (At (RGBA_Image p2) x y = rgbaModel (At d x y)) as Hconv.
  { simpl. rewrite Hpix2 by done. unfold flipped. simpl. rewrite Hrect1.
    rewrite Hpix1 by lia. unfold flipped.
    rewrite rgbaModel_idemp. f_equal. f_equal. lia. }
  split; [done |]. intros Hrgba. by rewrite Hconv, rgbaModel_id.
Qed.

Lemma flipVertically_twice_witness :
  exists i1 i2 d2,
    flipVertically (loaded_png opaque2) = (i1, Return None) /\
    flipVertically i1 = (i2, Return None) /\
    data i2 = Some d2 /\
    Bounds d2 = Bounds opaque2 /\ width d2 = width opaque2 /\ height d2 = height opaque2 /\
    forall x y, 0 <= x < width opaque2 -> 0 <= y < height opaque2 ->
      At d2 x y = rgbaModel (At opaque2 x y) /\
      (is_RGBA (At opaque2 x y) = true -> At d2 x y = At opaque2 x y).
Proof.
  apply (flipVertically_twice (loaded_png opaque2) opaque2).
  - reflexivity.
  - decoded_by_evaluation.
Defined.

(** ** C2: the 2x2 scenario *)

(** C2 (as stated, refuted): the 16-bit greyscale image [gray2x2] has the
    grid [[A, B], [C, D]] with [A = Gray16 0x0102], ...; after
    [flipVertically] the grid holds 8-bit RGBA samples, not [[B, A], [D, C]]. *)
Lemma flipVertically_2x2_not_swapped :
  decoded gray2x2 /\
  getPixels (loaded_png gray2x2)
    = [[Gray16 0x0102; Gray16 0x0304]; [Gray16 0x0506; Gray16 0x0708]] /\
  snd (flipVertically (loaded_png gray2x2)) = Return None /\
  getPixels (fst (flipVertically (loaded_png gray2x2)))
    = [[RGBA 3 3 3 255; RGBA 1 1 1 255]; [RGBA 7 7 7 255; RGBA 5 5 5 255]] /\
  getPixels (fst (flipVertically (loaded_png gray2x2)))
    <> [[Gray16 0x0304; Gray16 0x0102]; [Gray16 0x0708; Gray16 0x0506]].
Proof.
  split; [apply decoded_gray2x2 |].
  vm_compute. repeat split; discriminate.
Qed.

(** C2 (amended): for a loaded 2x2 image whose grid is [[A, B], [C, D]],
    [flipVertically] returns [nil] and the new grid is
    [[conv B, conv A], [conv D, conv C]] where [conv] is the conversion to
    RGBA; it is [[B, A], [D, C]] when the four samples are RGBA values. *)
Theorem flipVertically_2x2 (i : TrackedImage) (d : Image) (A B C D : Color) :
  data i = Some d -> decoded d ->
  getPixels i = [[A; B]; [C; D]] ->
  exists i',
    flipVertically i = (i', Return None) /\
    getPixels i' = [[rgbaModel B; rgbaModel A]; [rgbaModel D; rgbaModel C]] /\
    (is_RGBA A = true -> is_RGBA B = true -> is_RGBA C = true -> is_RGBA D = true ->
     getPixels i' = [[B; A]; [D; C]]).
Proof.
  intros Hi Hd Hgrid.
  rewrite (decoded_getPixels d Hd i Hi) in Hgrid.
  assert (X (Max (Bounds d)) = 2) as HW.
  { apply (f_equal length) in Hgrid. rewrite length_fmap, length_seqZ in Hgrid.
    simpl in Hgrid. lia. }
  rewrite HW in Hgrid. change (seqZ 0 2) with [0; 1] in Hgrid.
  assert (Y (Max (Bounds d)) = 2) as HH.
  { simpl in Hgrid. injection Hgrid as Hcol _.
    apply (f_equal length) in Hcol. rewrite length_fmap, length_seqZ in Hcol.
    simpl in Hcol. lia. }
  rewrite HH in Hgrid. change (seqZ 0 2) with [0; 1] in Hgrid.
  simpl in Hgrid. injection Hgrid as HA HB HC HD.
  destruct (flipVertically_decoded d Hd i Hi) as (p & Hrun & Hrect & Hpix).
  rewrite HW, HH in Hpix.
  exists (set_data i (RGBA_Image p)). split; [done |].
  assert (getPixels (set_data i (RGBA_Image p))
          = [[rgbaModel B; rgbaModel A]; [rgbaModel D; rgbaModel C]]) as Hnew.
  { rewrite (decoded_getPixels (RGBA_Image p) (decoded_RGBA_Image d p Hd Hrect)
               (set_data i (RGBA_Image p)) eq_refl).
    simpl. rewrite Hrect, HW, HH. change (seqZ 0 2) with [0; 1]. simpl.
    rewrite !Hpix by lia. unfold flipped. rewrite HH. simpl.
    change (2 - 1 - 0) with 1. change (2 - 1 - 1) with 0.
    by rewrite HA, HB, HC, HD. }
  split; [done |]. intros HrA HrB HrC HrD.
  by rewrite Hnew, !rgbaModel_id.
Qed.

Lemma flipVertically_2x2_witness :
  exists i',
    flipVertically (loaded_png gray2x2) = (i', Return None) /\
    getPixels i' = [[rgbaModel (Gray16 0x0304); rgbaModel (Gray16 0x0102)];
                    [rgbaModel (Gray16 0x0708); rgbaModel (Gray16 0x0506)]] /\
    (is_RGBA (Gray16 0x0102) = true -> is_RGBA (Gray16 0x0304) = true ->
     is_RGBA (Gray16 0x0506) = true -> is_RGBA (Gray16 0x0708) = true ->
     getPixels i' = [[Gray16 0x0304; Gray16 0x0102]; [Gray16 0x0708; Gray16 0x0506]]).
Proof.
  apply (flipVertically_2x2 (loaded_png gray2x2) gray2x2).
  - reflexivity.
  - decoded_by_evaluation.
  - vm_compute. reflexivity.
Defined.

(** ** C3: dimensions and colour model *)

Lemma mirror_never_nil (i i' : TrackedImage) : mirror i <> (i', Return None).
Proof.
  unfold mirror, flipHorizontally.
  destruct (flipVertically i) as [i1 [[e |] | e |]]; congruence.
Qed.

(** C3 (as stated, refuted): the one-pixel NRGBA image [translucent] is
    flipped without error, and the new image has the colour model RGBA while
    the input has the colour model NRGBA. *)
Lemma flipVertically_changes_color_model :
  decoded translucent /\
  snd (flipVertically (loaded_png translucent)) = Return None /\
  ColorModel <$> data (loaded_png translucent) = Some NRGBAModel /\
  ColorModel <$> data (fst (flipVertically (loaded_png translucent))) = Some RGBAModel /\
  ColorModel <$> data (fst (flipVertically (loaded_png translucent)))
    <> ColorModel <$> data (loaded_png translucent).
Proof.
  split; [apply decoded_translucent |].
  vm_compute. repeat split; discriminate.
Qed.

(** C3 (amended): for a loaded image, [flipVertically] returns [nil] and the
    new image has the width and the height of the input; its colour model is
    always RGBA, so it is the input's colour model exactly when the input is
    an RGBA image.  [mirror] never returns [nil]. *)
Theorem flipVertically_dimensions (i : TrackedImage) (d : Image) :
  data i = Some d -> decoded d ->
  exists i' d',
    flipVertically i = (i', Return None) /\
    data i' = Some d' /\
    width d' = width d /\ height d' = height d /\
    ColorModel d' = RGBAModel /\
    (ColorModel d' = ColorModel d <-> ColorModel d = RGBAModel) /\
    (forall i'', mirror i <> (i'', Return None)).
Proof.
  intros Hi Hd.
  destruct (flipVertically_decoded d Hd i Hi) as (p & Hrun & Hrect & _).
  exists (set_data i (RGBA_Image p)), (RGBA_Image p).
  split; [done |]. split; [done |].
  split; [unfold width; simpl; by rewrite Hrect |].
  split; [unfold height; simpl; by rewrite Hrect |].
  split; [done |].
  split; [simpl; split; congruence |].
  intros i''. apply mirror_never_nil.
Qed.

Lemma flipVertically_dimensions_witness :
  exists i' d',
    flipVertically (loaded_png translucent) = (i', Return None) /\
    data i' = Some d' /\
    width d' = width translucent /\ height d' = height translucent /\
    ColorModel d' = RGBAModel /\
    (ColorModel d' = ColorModel translucent <-> ColorModel translucent = RGBAModel) /\
    (forall i'', mirror (loaded_png translucent) <> (i'', Return None)).
Proof.
  apply (flipVertically_dimensions (loaded_png translucent) translucent).
  - reflexivity.
  - decoded_by_evaluation.
Defined.

(** ** C4: the centre row of an image of odd height *)

(** C4 (as stated, refuted): [deep16] has height 3; its centre row holds
    [RGBA64 0x5678 0 0 0xffff], and after [flipVertically] the centre row
    holds [RGBA 0x56 0 0 0xff]. *)
Lemma flipVertically_center_row_changed :
  decoded deep16 /\
  Z.odd (height deep16) = true /\
  (height deep16 - 1) / 2 = 1 /\
  snd (flipVertically (loaded_png deep16)) = Return None /\
  sample_at (loaded_png deep16) 0 1 = Some (RGBA64 0x5678 0 0 0xffff) /\
  sample_at (fst (flipVertically (loaded_png deep16))) 0 1 = Some (RGBA 0x56 0 0 0xff) /\
  sample_at (fst (flipVertically (loaded_png deep16))) 0 1
    <> sample_at (loaded_png deep16) 0 1.
Proof.
  split; [apply decoded_deep16 |].
  vm_compute. repeat split; discriminate.
Qed.

(** C4 (amended): for a loaded image of odd height [H], every sample of row
    [(H-1)/2] after [flipVertically] is the RGBA conversion of the sample
    at the same place of the input, hence that sample itself wherever it is
    an RGBA value. *)
Theorem flipVertically_center_row (i : TrackedImage) (d : Image) :
  data i = Some d -> decoded d -> Z.odd (height d) = true ->
  exists i' d',
    flipVertically i = (i', Return None) /\
    data i' = Some d' /\
    forall x, 0 <= x < width d ->
      At d' x ((height d - 1) / 2) = rgbaModel (At d x ((height d - 1) / 2)) /\
      (is_RGBA (At d x ((height d - 1) / 2)) = true ->
       At d' x ((height d - 1) / 2) = At d x ((height d - 1) / 2)).
Proof.
  intros Hi Hd Hodd.
  destruct (decoded_width_height d Hd) as [HW HH].
  destruct (decoded_range d Hd) as [_ HHr].
  destruct (flipVertically_decoded d Hd i Hi) as (p & Hrun & Hrect & Hpix).
  exists (set_data i (RGBA_Image p)), (RGBA_Image p).
  split; [done |]. split; [done |].
  intros x Hx. rewrite HW in Hx. rewrite HH in *.
  set (H := Y (Max (Bounds d))) in *.
  apply Z.odd_spec in Hodd as [k Hk].
  assert ((H - 1) / 2 = k) as Hmid.
  { replace (H - 1) with (k * 2) by lia. by apply Z.div_mul. }
  rewrite Hmid.
  assert (At (RGBA_Image p) x k = rgbaModel (At d x k)) as Hconv.
  { simpl. rewrite Hpix by lia. unfold flipped. fold H. f_equal. f_equal. lia. }
  split; [done |]. intros Hrgba. by rewrite Hconv, rgbaModel_id.
Qed.

Lemma flipVertically_center_row_witness :
  exists i' d',
    flipVertically (loaded_png deep16) = (i', Return None) /\
    data i' = Some d' /\
    forall x, 0 <= x < width deep16 ->
      At d' x ((height deep16 - 1) / 2) = rgbaModel (At deep16 x ((height deep16 - 1) / 2)) /\
      (is_RGBA (At deep16 x ((height deep16 - 1) / 2)) = true ->
       At d' x ((height deep16 - 1) / 2) = At deep16 x ((height deep16 - 1) / 2)).
Proof.
  apply (flipVertically_center_row (loaded_png deep16) deep16).
  - reflexivity.
  - decoded_by_evaluation.
  - vm_compute. reflexivity.
Defined.

(** ** C5: the flips on a state without an image *)

(** C5 (as stated, refuted): on the freshly constructed [TrackedImage{}],
    [flipHorizontally] returns its not-implemented error, which is not the
    no-image-loaded error. *)
Lemma flipHorizontally_fresh_not_NoImageLoaded :
  data zero_TrackedImage = None /\
  flipHorizontally zero_TrackedImage = (zero_TrackedImage, Return (Some NotImplemented)) /\
  snd (flipHorizontally zero_TrackedImage) <> Return (Some NoImageLoaded).
Proof. repeat split. discriminate. Qed.

(** C5 (amended): on a state with no image loaded, [flipVertically] and
    [mirror] return the no-image-loaded error and [flipHorizontally] returns
    its not-implemented error; none of them changes the state. *)
Theorem flips_without_image (i : TrackedImage) :
  data i = None ->
  flipVertically i = (i, Return (Some NoImageLoaded)) /\
  mirror i = (i, Return (Some NoImageLoaded)) /\
  flipHorizontally i = (i, Return (Some NotImplemented)).
Proof.
  intros Hi. unfold mirror, flipVertically. rewrite Hi. done.
Qed.

Lemma flips_without_image_witness :
  flipVertically zero_TrackedImage = (zero_TrackedImage, Return (Some NoImageLoaded)) /\
  mirror zero_TrackedImage = (zero_TrackedImage, Return (Some NoImageLoaded)) /\
  flipHorizontally zero_TrackedImage = (zero_TrackedImage, Return (Some NotImplemented)).
Proof. apply (flips_without_image zero_TrackedImage). reflexivity. Defined.

(** ** C6: the state after a failing flip *)

(** [flipVertically] ends in one of three ways, and only the successful one
    touches the state, where it replaces [data] alone. *)
Lemma flipVertically_cases (i : TrackedImage) :
  flipVertically i = (i, Return (Some NoImageLoaded)) \/
  flipVertically i = (i, Panic) \/
  exists p, flipVertically i = (set_data i (RGBA_Image p), Return None).
Proof.
  unfold flipVertically.
  destruct (data i) as [d |]; [| by left].
  destruct (NewRGBA (Bounds d)) as [rgba |]; [| by right; left].
  destruct (flip_loop _ _ rgba) as [rgba' |]; [| by right; left].
  right; right. by exists rgba'.
Qed.

(** C6 (as stated, refuted): on the loaded two-row image [opaque2], [mirror]
    returns the error of its horizontal stage, and the state is not the one
    before the call: [data] holds the vertically flipped image. *)
Lemma mirror_error_changes_data :
  decoded opaque2 /\
  snd (mirror (loaded_png opaque2)) = Return (Some NotImplemented) /\
  sample_at (loaded_png opaque2) 0 0 = Some (RGBA 1 2 3 255) /\
  sample_at (fst (mirror (loaded_png opaque2))) 0 0 = Some (RGBA 4 5 6 255) /\
  data (fst (mirror (loaded_png opaque2))) <> data (loaded_png opaque2).
Proof.
  split; [apply decoded_opaque2 |].
  split; [by vm_compute |]. split; [by vm_compute |]. split; [by vm_compute |].
  intros Heq.
  apply (f_equal (fun o : option Image => (fun d => At d 0 0) <$> o)) in Heq.
  vm_compute in Heq. discriminate.
Qed.

(** C6 (amended): [flipVertically] replaces [data] (and nothing else) when it
    returns [nil] and leaves the state as it was when it returns an error;
    [flipHorizontally] always returns an error and leaves the state as it
    was; [mirror] returns the error of its first failing stage unchanged:
    the state is as before the call when the vertical stage fails, and is
    the state left by the successful vertical flip when the horizontal stage
    fails. *)
Theorem flips_state_on_error (i : TrackedImage) :
  (forall i' e, flipVertically i = (i', Return (Some e)) -> i' = i) /\
  (forall i', flipVertically i = (i', Return None) ->
     exists p, i' = set_data i (RGBA_Image p)) /\
  (exists e, flipHorizontally i = (i, Return (Some e))) /\
  (forall i' e, flipVertically i = (i', Return (Some e)) ->
     mirror i = (i, Return (Some e))) /\
  (forall i', flipVertically i = (i', Return None) ->
     mirror i = (i', snd (flipHorizontally i')) /\
     exists e, snd (flipHorizontally i') = Return (Some e)).
Proof.
  pose proof (flipVertically_cases i) as Hcases.
  split; [| split; [| split; [| split]]].
  - intros i' e Hrun. destruct Hcases as [Hc | [Hc | [p Hc]]]; congruence.
  - intros i' Hrun. destruct Hcases as [Hc | [Hc | [p Hc]]]; try congruence.
    exists p. congruence.
  - by exists NotImplemented.
  - intros i' e Hrun. unfold mirror. rewrite Hrun.
    destruct Hcases as [Hc | [Hc | [p Hc]]]; congruence.
  - intros i' Hrun. unfold mirror. rewrite Hrun.
    split; [done | by exists NotImplemented].
Qed.

(** ** C10: what a successful vertical flip leaves alone *)

(** C10: when [flipVertically] returns [nil], the [filepath] and [format]
    fields are those before the call; only [data] is replaced. *)
Theorem flipVertically_frame (i i' : TrackedImage) :
  flipVertically i = (i', Return None) ->
  filepath i' = filepath i /\ format i' = format i /\
  exists d', i' = {| filepath := filepath i; format := format i; data := Some d' |}.
Proof.
  intros Hrun.
  destruct (flipVertically_cases i) as [Hc | [Hc | [p Hc]]]; try congruence.
  rewrite Hc in Hrun. injection Hrun as <-.
  split; [done |]. split; [done |]. by exists (RGBA_Image p).
Qed.

Lemma flipVertically_frame_witness :
  filepath (fst (flipVertically (loaded_png opaque2))) = filepath (loaded_png opaque2) /\
  format (fst (flipVertically (loaded_png opaque2))) = format (loaded_png opaque2) /\
  exists d', fst (flipVertically (loaded_png opaque2))
             = {| filepath := filepath (loaded_png opaque2);
                  format := format (loaded_png opaque2); data := Some d' |}.
Proof.
  apply (flipVertically_frame (loaded_png opaque2)).
  vm_compute. reflexivity.
Defined.

(** ** C9: the validation of [resize] *)

(** C9: [resize] returns the invalid-modifier error exactly when
    [modifier <= 0.1] or [1.00 < modifier < 1.01] (comparisons of float64
    values); for every other modifier it returns [nil]; in both cases the
    state is not changed.  In particular 0.05 and 1.005 are refused, 0.5 and
    2.0 are accepted. *)
Theorem resize_validation (i : TrackedImage) (modifier : float) :
  fst (resize i modifier) = i /\
  (snd (resize i modifier) = Return (Some InvalidModifier) <->
   (PrimFloat.leb modifier 0.1 = true \/
    (PrimFloat.ltb 1.00 modifier = true /\ PrimFloat.ltb modifier 1.01 = true))) /\
  (snd (resize i modifier) = Return None <->
   ~ (PrimFloat.leb modifier 0.1 = true \/
      (PrimFloat.ltb 1.00 modifier = true /\ PrimFloat.ltb modifier 1.01 = true))) /\
  resize i 0.05 = (i, Return (Some InvalidModifier)) /\
  resize i 1.005 = (i, Return (Some InvalidModifier)) /\
  resize i 0.5 = (i, Return None) /\
  resize i 2.0 = (i, Return None).
Proof.
  assert ((PrimFloat.leb modifier 0.1 ||
           (PrimFloat.ltb 1.00 modifier && PrimFloat.ltb modifier 1.01))%bool = true <->
          (PrimFloat.leb modifier 0.1 = true \/
           (PrimFloat.ltb 1.00 modifier = true /\ PrimFloat.ltb modifier 1.01 = true)))
    as Hbad by (rewrite orb_true_iff, andb_true_iff; tauto).
  unfold resize.
  destruct (PrimFloat.leb modifier 0.1 ||
            (PrimFloat.ltb 1.00 modifier && PrimFloat.ltb modifier 1.01))%bool;
    rewrite <- Hbad; simpl.
  - split; [done |]. split; [done |]. split; [| by vm_compute].
    split; [discriminate | intros Hn; by destruct Hn].
  - split; [done |]. split; [| split; [| by vm_compute]].
    + split; discriminate.
    + split; [discriminate | done].
Qed.

(** ** C7: [load] *)

(** A host on which nothing decodes and no handle closes cleanly. *)
Definition failing_host : Host :=
  {| open_err := fun _ => None;
     create_err := fun _ => None;
     close_err := fun _ => Some (PathError "close" "ss.png" "input/output error");
     image_Decode := fun _ => inl (CodecError "image: unknown format");
     png_Encode := fun _ => ([], None);
     jpeg_Encode := fun _ => ([], None) |}.

(** A host on which every call succeeds; every file decodes to [opaque2]. *)
Definition plain_host : Host :=
  {| open_err := fun _ => None;
     create_err := fun _ => None;
     close_err := fun _ => None;
     image_Decode := fun _ => inr (opaque2, "png");
     png_Encode := fun _ => ([Byte.x89; Byte.x50; Byte.x4e; Byte.x47], None);
     jpeg_Encode := fun _ => ([Byte.xff; Byte.xd8], None) |}.

Definition one_file (path : string) (content : list Byte.byte) : FS :=
  {[ path := content ]}.

(** C7 (as stated, refuted): the file opens, decoding fails with the
    unknown-format error and closing the handle fails as well; [load] does
    not return the decoding error: the deferred close ends the process
    through [log.Fatal] with the close error. *)
Lemma load_decode_error_not_returned :
  os_Open failing_host (one_file "ss.png" [Byte.x00]) "ss.png" = inr [Byte.x00] /\
  image_Decode failing_host [Byte.x00] = inl (CodecError "image: unknown format") /\
  load failing_host (one_file "ss.png" [Byte.x00]) zero_TrackedImage "ss.png"
    = (zero_TrackedImage, Fatal (PathError "close" "ss.png" "input/output error")) /\
  snd (load failing_host (one_file "ss.png" [Byte.x00]) zero_TrackedImage "ss.png")
    <> Return (Some (CodecError "image: unknown format")).
Proof. vm_compute. repeat split. discriminate. Qed.

(** C7 (amended): [load] sets [filepath], [format] and [data] together
    exactly when opening and decoding both succeed, and otherwise leaves the
    three fields as they were.  When opening fails its error is returned
    unchanged.  When decoding fails its error is returned unchanged if the
    deferred close succeeds; if the close fails the call ends in
    [log.Fatal] with the close error.  After a successful decode [load]
    returns [nil] if the close succeeds. *)
Theorem load_all_or_nothing (h : Host) (fs : FS) (i : TrackedImage) (path : string) :
  (forall err, os_Open h fs path = inl err ->
     load h fs i path = (i, Return (Some err))) /\
  (forall content err,
     os_Open h fs path = inr content -> image_Decode h content = inl err ->
     fst (load h fs i path) = i /\
     (close_err h path = None -> snd (load h fs i path) = Return (Some err)) /\
     (forall cerr, close_err h path = Some cerr -> snd (load h fs i path) = Fatal cerr)) /\
  (forall content d fmt,
     os_Open h fs path = inr content -> image_Decode h content = inr (d, fmt) ->
     fst (load h fs i path) = {| filepath := path; format := fmt; data := Some d |} /\
     (close_err h path = None -> snd (load h fs i path) = Return None) /\
     (forall cerr, close_err h path = Some cerr -> snd (load h fs i path) = Fatal cerr)) /\
  (fst (load h fs i path) <> i ->
     exists content d fmt,
       os_Open h fs path = inr content /\ image_Decode h content = inr (d, fmt)).
Proof.
  unfold load, deferred_Close.
  split; [| split; [| split]].
  - by intros err ->.
  - intros content err -> ->. simpl.
    split; [done |]. split; [by intros -> | by intros cerr ->].
  - intros content d fmt -> ->. simpl.
    split; [done |]. split; [by intros -> | by intros cerr ->].
  - destruct (os_Open h fs path) as [err | content]; [simpl; congruence |].
    destruct (image_Decode h content) as [err | [d fmt]] eqn:Hdec; [simpl; congruence |].
    intros _. by exists content, d, fmt.
Qed.

(** ** C8: [save] with a format that cannot be encoded *)

(** C8 (as stated, refuted): with the format "bmp" and no path argument,
    [save] returns the unsupported-format error, but only after [os.Create]
    has truncated the file at [filepath]: the file system is not the one
    before the call. *)
Lemma save_unsupported_truncates_file :
  save plain_host (one_file "pic.bmp" [Byte.x42; Byte.x4d])
       {| filepath := "pic.bmp"; format := "bmp"; data := Some opaque2 |} None
    = ({| filepath := "pic.bmp"; format := "bmp"; data := Some opaque2 |},
       one_file "pic.bmp" [],
       Return (Some (UnsupportedFormat "bmp"))) /\
  one_file "pic.bmp" [] <> one_file "pic.bmp" [Byte.x42; Byte.x4d].
Proof.
  split.
  - unfold save, os_Create, one_file. simpl.
    by rewrite insert_singleton_eq.
  - unfold one_file. intros Heq.
    apply (f_equal (fun m : FS => m !! "pic.bmp")) in Heq.
    rewrite !lookup_singleton_eq in Heq. discriminate.
Qed.

(** C8 (amended): when the format is neither "png" nor "jpeg", [save] first
    calls [os.Create] on its target: if that fails, the creation error is
    returned and the file system is untouched; if it succeeds, the target
    file is created or truncated to empty, nothing is written to it, and the
    unsupported-format error is returned (the deferred close permitting).
    The state is not changed.  For every format, the target is the path
    argument, and [filepath] when the argument is absent. *)
Theorem save_unsupported_format (h : Host) (fs : FS) (i : TrackedImage)
    (path : option string) :
  format i <> "png" -> format i <> "jpeg" ->
  (forall err, create_err h (default (filepath i) path) = Some err ->
     save h fs i path = (i, fs, Return (Some err))) /\
  (create_err h (default (filepath i) path) = None ->
     save h fs i path
       = (i, <[default (filepath i) path := []]> fs,
          deferred_Close h (default (filepath i) path)
            (Return (Some (UnsupportedFormat (format i)))))) /\
  (create_err h (default (filepath i) path) = None ->
   close_err h (default (filepath i) path) = None ->
     snd (save h fs i path) = Return (Some (UnsupportedFormat (format i)))) /\
  save h fs i None = save h fs i (Some (filepath i)).
Proof.
  intros Hpng Hjpeg.
  assert (match path with Some p => p | None => filepath i end
          = default (filepath i) path) as Htarget by by destruct path.
  unfold save, os_Create. rewrite Htarget.
  split; [| split; [| split]].
  - by intros err ->.
  - intros ->. by rewrite !decide_False.
  - intros -> Hclose. rewrite !decide_False by done. simpl.
    unfold deferred_Close. by rewrite Hclose.
  - done.
Qed.

Lemma save_unsupported_format_witness :
  (forall err, create_err plain_host (default "pic.bmp" None) = Some err ->
     save plain_host (one_file "pic.bmp" [Byte.x42; Byte.x4d])
          {| filepath := "pic.bmp"; format := "bmp"; data := None |} None
       = ({| filepath := "pic.bmp"; format := "bmp"; data := None |},
          one_file "pic.bmp" [Byte.x42; Byte.x4d], Return (Some err))) /\
  (create_err plain_host (default "pic.bmp" None) = None ->
     save plain_host (one_file "pic.bmp" [Byte.x42; Byte.x4d])
          {| filepath := "pic.bmp"; format := "bmp"; data := None |} None
       = ({| filepath := "pic.bmp"; format := "bmp"; data := None |},
          <[default "pic.bmp" None := []]> (one_file "pic.bmp" [Byte.x42; Byte.x4d]),
          deferred_Close plain_host (default "pic.bmp" None)
            (Return (Some (UnsupportedFormat "bmp"))))) /\
  (create_err plain_host (default "pic.bmp" None) = None ->
   close_err plain_host (default "pic.bmp" None) = None ->
     snd (save plain_host (one_file "pic.bmp" [Byte.x42; Byte.x4d])
            {| filepath := "pic.bmp"; format := "bmp"; data := None |} None)
       = Return (Some (UnsupportedFormat "bmp"))) /\
  save plain_host (one_file "pic.bmp" [Byte.x42; Byte.x4d])
       {| filepath := "pic.bmp"; format := "bmp"; data := None |} None
    = save plain_host (one_file "pic.bmp" [Byte.x42; Byte.x4d])
        {| filepath := "pic.bmp"; format := "bmp"; data := None |} (Some "pic.bmp").
Proof.
  apply (save_unsupported_format plain_host (one_file "pic.bmp" [Byte.x42; Byte.x4d])
           {| filepath := "pic.bmp"; format := "bmp"; data := None |} None);
    simpl; discriminate.
Defined.

(** * Further properties of the program *)

(** ** [getPixels] *)

(** X1: the grid of [getPixels] has one column per unit of the width of the
    bounds, every column has one entry per unit of the height, and the entry
    [y] of column [x] is [At(x, y)]: the coordinates start at 0, whatever
    [Bounds().Min] is. *)
Theorem getPixels_grid (i : TrackedImage) (d : Image) :
  data i = Some d ->
  length (getPixels i) = Z.to_nat (Dx (Bounds d)) /\
  (forall col, col ∈ getPixels i -> length col = Z.to_nat (Dy (Bounds d))) /\
  (forall x y, 0 <= x < Dx (Bounds d) -> 0 <= y < Dy (Bounds d) ->
     index (getPixels i) x ≫= (fun col => index col y) = Some (At d x y)).
Proof.
  intros Hi. unfold getPixels. rewrite Hi. simpl.
  split; [by rewrite length_fmap, length_seqZ |].
  split.
  - intros col Hcol. apply list_elem_of_fmap in Hcol as (x & -> & _).
    by rewrite length_fmap, length_seqZ.
  - intros x y Hx Hy.
    rewrite <- (Z2Nat.id x) at 1 by lia.
    erewrite index_Some; last first.
    { rewrite list_lookup_fmap, lookup_seqZ_lt by lia. simpl. by rewrite Z2Nat.id by lia. }
    simpl. rewrite <- (Z2Nat.id y) at 1 by lia.
    apply index_Some.
    rewrite list_lookup_fmap, lookup_seqZ_lt by lia. simpl. by rewrite Z2Nat.id by lia.
Qed.

Lemma getPixels_grid_witness :
  length (getPixels (loaded_png gray2x2)) = Z.to_nat (Dx (Bounds gray2x2)) /\
  (forall col, col ∈ getPixels (loaded_png gray2x2) ->
     length col = Z.to_nat (Dy (Bounds gray2x2))) /\
  (forall x y, 0 <= x < Dx (Bounds gray2x2) -> 0 <= y < Dy (Bounds gray2x2) ->
     index (getPixels (loaded_png gray2x2)) x ≫= (fun col => index col y)
     = Some (At gray2x2 x y)).
Proof. apply (getPixels_grid (loaded_png gray2x2) gray2x2). reflexivity. Defined.

(** ** One vertical flip, and several *)

Lemma RGBAAt_outside p x y : In x y (Rect p) = false -> RGBAAt p x y = RGBA 0 0 0 0.
Proof. intros Hout. unfold RGBAAt. by rewrite Hout. Qed.

Lemma decoded_In_inv d x y :
  decoded d -> In x y (Bounds d) = true ->
  0 <= x < X (Max (Bounds d)) /\ 0 <= y < Y (Max (Bounds d)).
Proof.
  intros (HMin & _) Hin. unfold In in Hin. rewrite HMin in Hin. simpl in Hin.
  repeat (apply andb_prop in Hin as [Hin ?]). lia.
Qed.

(** X2: on a loaded image [flipVertically] returns [nil], and the new image
    holds at [(x, y)] the RGBA conversion of the old sample at
    [(x, height - 1 - y)]; every sample of the new image is an 8-bit RGBA
    value, the zero one outside the bounds. *)
Theorem flipVertically_mirrors_rows (i : TrackedImage) (d : Image) :
  data i = Some d -> decoded d ->
  exists i' d',
    flipVertically i = (i', Return None) /\
    data i' = Some d' /\
    (forall x y, 0 <= x < width d -> 0 <= y < height d ->
       At d' x y = rgbaModel (At d x (height d - 1 - y))) /\
    (forall x y, is_RGBA (At d' x y) = true) /\
    (forall x y, ~ (0 <= x < width d /\ 0 <= y < height d) ->
       At d' x y = RGBA 0 0 0 0).
Proof.
  intros Hi Hd.
  destruct (decoded_width_height d Hd) as [-> ->].
  destruct (flipVertically_decoded d Hd i Hi) as (p & Hrun & Hrect & Hpix).
  exists (set_data i (RGBA_Image p)), (RGBA_Image p).
  split; [done |]. split; [done |]. simpl.
  split; [intros x y Hx Hy; by rewrite Hpix |].
  split; [intros x y; apply RGBAAt_is_RGBA |].
  intros x y Hout. apply RGBAAt_outside. rewrite Hrect.
  destruct (In x y (Bounds d)) eqn:Hin; [| done].
  by apply decoded_In_inv in Hin.
Qed.

Lemma flipVertically_mirrors_rows_witness :
  exists i' d',
    flipVertically (loaded_png deep16) = (i', Return None) /\
    data i' = Some d' /\
    (forall x y, 0 <= x < width deep16 -> 0 <= y < height deep16 ->
       At d' x y = rgbaModel (At deep16 x (height deep16 - 1 - y))) /\
    (forall x y, is_RGBA (At d' x y) = true) /\
    (forall x y, ~ (0 <= x < width deep16 /\ 0 <= y < height deep16) ->
       At d' x y = RGBA 0 0 0 0).
Proof.
  apply (flipVertically_mirrors_rows (loaded_png deep16) deep16).
  - reflexivity.
  - decoded_by_evaluation.
Defined.

(** The state after any number of flips of a loaded image. *)
Lemma flips_decoded (i : TrackedImage) (d : Image) (n : nat) :
  data i = Some d -> decoded d ->
  exists dn,
    data (flips n i) = Some dn /\ decoded dn /\ Bounds dn = Bounds d /\
    forall x y, 0 <= x < width d -> 0 <= y < height d ->
      At dn x y =
        match n with
        | O => At d x y
        | S _ => rgbaModel (At d x (if Nat.even n then y else height d - 1 - y))
        end.
Proof.
  intros Hi Hd.
  destruct (decoded_width_height d Hd) as [HW HH].
  induction n as [| n (dn & Hdata & Hdn & Hbounds & Hsamples)].
  - by exists d.
  - destruct (flipVertically_decoded dn Hdn (flips n i) Hdata)
      as (p & Hrun & Hrect & Hpix).
    exists (RGBA_Image p).
    split; [change (flips (S n) i) with (fst (flipVertically (flips n i)));
            by rewrite Hrun |].
    split; [by apply (decoded_RGBA_Image dn) |].
    split; [simpl; congruence |].
    intros x y Hx Hy. simpl At. rewrite Hbounds in Hpix.
    rewrite Hpix by lia. unfold flipped. rewrite Hbounds, <- HH.
    rewrite Hsamples by lia.
    destruct n as [| m]; [done |].
    rewrite rgbaModel_idemp.
    change (Nat.even (S (S m))) with (Nat.even m).
    rewrite (Nat.even_succ m), <- Nat.negb_even.
    destruct (Nat.even m); simpl; [| done].
    f_equal. f_equal. lia.
Qed.

(** X3: a loaded image can be flipped any number of times: the [n]+1-th
    call still returns [nil], the bounds never change, and after [n >= 1]
    calls the sample at [(x, y)] is the RGBA conversion of the original
    sample at [(x, y)] when [n] is even and at [(x, height - 1 - y)] when
    [n] is odd. *)
Theorem flipVertically_repeated (i : TrackedImage) (d : Image) (n : nat) :
  data i = Some d -> decoded d ->
  snd (flipVertically (flips n i)) = Return None /\
  exists dn,
    data (flips (S n) i) = Some dn /\ Bounds dn = Bounds d /\
    forall x y, 0 <= x < width d -> 0 <= y < height d ->
      At dn x y = rgbaModel (At d x (if Nat.even (S n) then y else height d - 1 - y)).
Proof.
  intros Hi Hd.
  destruct (flips_decoded i d n Hi Hd) as (dn & Hdata & Hdn & _).
  destruct (flipVertically_decoded dn Hdn (flips n i) Hdata) as (p & Hrun & _).
  split; [by rewrite Hrun |].
  destruct (flips_decoded i d (S n) Hi Hd) as (dn' & Hdata' & _ & Hbounds' & Hsamples').
  by exists dn'.
Qed.

Lemma flipVertically_repeated_witness :
  snd (flipVertically (flips 2 (loaded_png deep16))) = Return None /\
  exists dn,
    data (flips 3 (loaded_png deep16)) = Some dn /\ Bounds dn = Bounds deep16 /\
    forall x y, 0 <= x < width deep16 -> 0 <= y < height deep16 ->
      At dn x y
      = rgbaModel (At deep16 x (if Nat.even 3 then y else height deep16 - 1 - y)).
Proof.
  apply (flipVertically_repeated (loaded_png deep16) deep16 2).
  - reflexivity.
  - decoded_by_evaluation.
Defined.

(** X4: the loops of [flipVertically] index the grid from 0 but compute the
    inverse row from [Bounds().Max.Y]; on a non-empty image whose bounds
    start at a row [Min.Y >= 1] the first inverse row lies beyond the column
    and the call panics (index out of range), leaving the state as it was. *)
Theorem flipVertically_offset_rows_panic (i : TrackedImage) (d : Image) :
  data i = Some d ->
  1 <= Y (Min (Bounds d)) < Y (Max (Bounds d)) ->
  Y (Max (Bounds d)) <= maxInt ->
  0 < Dx (Bounds d) ->
  4 * Dx (Bounds d) * (Y (Max (Bounds d)) - Y (Min (Bounds d))) <= maxInt ->
  flipVertically i = (i, Panic).
Proof.
  intros Hi Hrows Hmax Hcols Hfit.
  assert (Dy (Bounds d) = Y (Max (Bounds d)) - Y (Min (Bounds d))) as HDy.
  { unfold Dy. apply int_sub_small. unfold minInt, maxInt in *. lia. }
  unfold flipVertically. rewrite Hi.
  unfold NewRGBA. rewrite HDy.
  destruct (Z.ltb_spec (Dx (Bounds d)) 0); [lia |].
  destruct (Z.ltb_spec (Y (Max (Bounds d)) - Y (Min (Bounds d))) 0); [lia |].
  destruct (Z.ltb_spec maxInt (4 * Dx (Bounds d) * (Y (Max (Bounds d)) - Y (Min (Bounds d)))));
    [lia |].
  simpl. unfold getPixels. rewrite Hi. simpl. rewrite HDy.
  rewrite (seqZ_cons 0 (Dx (Bounds d))) by lia.
  rewrite (seqZ_cons 0 (Y (Max (Bounds d)) - Y (Min (Bounds d)))) by lia.
  rewrite !fmap_cons.
  set (col := (fun y => At d 0 y) <$> seqZ (Z.succ 0) (Z.pred (Y (Max (Bounds d)) - Y (Min (Bounds d))))).
  set (cols := (fun x => _) <$> seqZ (Z.succ 0) (Z.pred (Dx (Bounds d)))).
  assert (flip_cell (Max (Bounds d)) ((At d 0 0 :: col) :: cols) 0 0 (At d 0 0)
            {| Pix := ∅; Rect := Bounds d |} = None) as Hcell.
  { unfold flip_cell. rewrite int_div_2 by lia.
    destruct (Z.ltb_spec (Y (Max (Bounds d)) / 2) 0) as [Hneg |].
    { pose proof (Z.div_pos (Y (Max (Bounds d))) 2). lia. }
    rewrite (int_sub_small (Y (Max (Bounds d))) 0) by (unfold minInt, maxInt in *; lia).
    rewrite (int_sub_small (Y (Max (Bounds d)) - 0) 1) by (unfold minInt, maxInt in *; lia).
    change (index ((At d 0 0 :: col) :: cols) 0) with (Some (At d 0 0 :: col)).
    simpl. unfold index.
    destruct (Z.ltb_spec (Y (Max (Bounds d)) - 0 - 1) 0); [done |].
    rewrite lookup_ge_None_2; [done |].
    simpl. unfold col. rewrite length_fmap, length_seqZ. lia. }
  unfold flip_loop. simpl. by rewrite Hcell.
Qed.

(** An image of one column and two rows whose bounds start at row 1. *)
Definition offset_rows : Image :=
  {| ColorModel := RGBAModel;
     Bounds := Rect_ (Pt 0 1) (Pt 1 3);
     At := fun x y => if In x y (Rect_ (Pt 0 1) (Pt 1 3)) then RGBA 9 9 9 255 else RGBA 0 0 0 0 |}.

Lemma flipVertically_offset_rows_panic_witness :
  flipVertically (loaded_png offset_rows) = (loaded_png offset_rows, Panic).
Proof.
  apply (flipVertically_offset_rows_panic (loaded_png offset_rows) offset_rows).
  - reflexivity.
  - simpl. lia.
  - vm_compute. discriminate.
  - vm_compute. reflexivity.
  - vm_compute. discriminate.
Defined.

(** ** [save] and [load] *)


(** X6: with an image loaded, a format "png" or "jpeg" and a target that can
    be created, [save] leaves in the target exactly the bytes the matching
    encoder produced and ends with the encoder's error (or [nil]), the
    deferred close permitting. *)
Theorem save_writes_encoding (h : Host) (fs : FS) (i : TrackedImage) (d : Image)
    (path : option string) :
  data i = Some d ->
  create_err h (default (filepath i) path) = None ->
  (format i = "png" ->
     save h fs i path
     = (i, <[default (filepath i) path := fst (png_Encode h d)]> fs,
        deferred_Close h (default (filepath i) path) (Return (snd (png_Encode h d))))) /\
  (format i = "jpeg" ->
     save h fs i path
     = (i, <[default (filepath i) path := fst (jpeg_Encode h d)]> fs,
        deferred_Close h (default (filepath i) path) (Return (snd (jpeg_Encode h d))))).
Proof.
  intros Hi Hcreate.
  assert (match path with Some p => p | None => filepath i end
          = default (filepath i) path) as Htarget by by destruct path.
  unfold save, os_Create. rewrite Htarget, Hcreate, Hi.
  split; intros Hfmt; rewrite Hfmt; simpl.
  - destruct (png_Encode h d) as [bytes err]. simpl. by rewrite insert_insert_eq.
  - destruct (jpeg_Encode h d) as [bytes err]. simpl. by rewrite insert_insert_eq.
Qed.

Lemma save_writes_encoding_witness :
  (format (loaded_png opaque2) = "png" ->
     save plain_host (one_file "ss.png" [Byte.x00]) (loaded_png opaque2) (Some "ss_1.png")
     = (loaded_png opaque2,
        <[default (filepath (loaded_png opaque2)) (Some "ss_1.png")
            := fst (png_Encode plain_host opaque2)]> (one_file "ss.png" [Byte.x00]),
        deferred_Close plain_host (default (filepath (loaded_png opaque2)) (Some "ss_1.png"))
          (Return (snd (png_Encode plain_host opaque2))))) /\
  (format (loaded_png opaque2) = "jpeg" ->
     save plain_host (one_file "ss.png" [Byte.x00]) (loaded_png opaque2) (Some "ss_1.png")
     = (loaded_png opaque2,
        <[default (filepath (loaded_png opaque2)) (Some "ss_1.png")
            := fst (jpeg_Encode plain_host opaque2)]> (one_file "ss.png" [Byte.x00]),
        deferred_Close plain_host (default (filepath (loaded_png opaque2)) (Some "ss_1.png"))
          (Return (snd (jpeg_Encode plain_host opaque2))))).
Proof.
  apply (save_writes_encoding plain_host (one_file "ss.png" [Byte.x00])
           (loaded_png opaque2) opaque2 (Some "ss_1.png")); reflexivity.
Defined.

(** X7: with no image loaded but a format "png" or "jpeg", [save] still
    creates or truncates its target, then the encoder panics on the nil
    image: the call ends in a panic (in [log.Fatal] if the deferred close
    fails too) and the target is left empty. *)
Theorem save_without_image (h : Host) (fs : FS) (i : TrackedImage)
    (path : option string) :
  data i = None ->
  format i = "png" \/ format i = "jpeg" ->
  create_err h (default (filepath i) path) = None ->
  save h fs i path
  = (i, <[default (filepath i) path := []]> fs,
     deferred_Close h (default (filepath i) path) Panic).
Proof.
  intros Hi Hfmt Hcreate.
  assert (match path with Some p => p | None => filepath i end
          = default (filepath i) path) as Htarget by by destruct path.
  unfold save, os_Create. rewrite Htarget, Hcreate, Hi.
  by destruct Hfmt as [-> | ->].
Qed.

Lemma save_without_image_witness :
  save plain_host (one_file "out.png" [Byte.x01])
       {| filepath := "out.png"; format := "png"; data := None |} None
  = ({| filepath := "out.png"; format := "png"; data := None |},
     <[default "out.png" None := []]> (one_file "out.png" [Byte.x01]),
     deferred_Close plain_host (default "out.png" None) Panic).
Proof.
  apply (save_without_image plain_host (one_file "out.png" [Byte.x01])
           {| filepath := "out.png"; format := "png"; data := None |} None).
  - reflexivity.
  - left. reflexivity.
  - reflexivity.
Defined.



(** X9: what [save] wrote is what a later [load] of the same path reads: if
    the target can be created and opened, [load] after a [save] of a loaded
    image in format "png" hands to the decoder exactly the bytes the png
    encoder produced, and its resulting state is decided by decoding them. *)
Theorem save_then_load (h : Host) (fs : FS) (i j : TrackedImage) (d : Image)
    (path : string) :
  data i = Some d -> format i = "png" ->
  create_err h path = None -> open_err h path = None ->
  os_Open h (snd (fst (save h fs i (Some path)))) path = inr (fst (png_Encode h d)) /\
  fst (load h (snd (fst (save h fs i (Some path)))) j path)
  = match image_Decode h (fst (png_Encode h d)) with
    | inr (d', fmt) => {| filepath := path; format := fmt; data := Some d' |}
    | inl _ => j
    end.
Proof.
  intros Hi Hfmt Hcreate Hopen.
  destruct (save_writes_encoding h fs i d (Some path) Hi Hcreate) as [Hpng _].
  rewrite (Hpng Hfmt). simpl.
  assert (os_Open h (<[path := fst (png_Encode h d)]> fs) path
          = inr (fst (png_Encode h d))) as Hread.
  { unfold os_Open. by rewrite Hopen, lookup_insert_eq. }
  split; [done |].
  unfold load. rewrite Hread.
  by destruct (image_Decode h (fst (png_Encode h d))) as [err | [d' fmt]].
Qed.

Lemma save_then_load_witness :
  os_Open plain_host
    (snd (fst (save plain_host (one_file "ss.png" [Byte.x00]) (loaded_png opaque2)
                 (Some "ss_1.png")))) "ss_1.png"
  = inr (fst (png_Encode plain_host opaque2)) /\
  fst (load plain_host
         (snd (fst (save plain_host (one_file "ss.png" [Byte.x00]) (loaded_png opaque2)
                      (Some "ss_1.png")))) zero_TrackedImage "ss_1.png")
  = match image_Decode plain_host (fst (png_Encode plain_host opaque2)) with
    | inr (d', fmt) => {| filepath := "ss_1.png"; format := fmt; data := Some d' |}
    | inl _ => zero_TrackedImage
    end.
Proof.
  apply (save_then_load plain_host (one_file "ss.png" [Byte.x00]) (loaded_png opaque2)
           zero_TrackedImage opaque2 "ss_1.png"); reflexivity.
Defined.

(** ** The flip of the earlier revision *)

Section FlipEveryRow.

Variable d : Image.
Hypothesis Hd : decoded d.

Let W := X (Max (Bounds d)).
Let H := Y (Max (Bounds d)).
Let pixels : list (list Color) := (fun x => At d x <$> seqZ 0 H) <$> seqZ 0 W.

(** Without the skip condition every row is visited and swapped with its
    inverse; each visit writes two flipped samples. *)
Lemma flip_every_row_column x p0 :
  0 <= x < W -> Rect p0 = Bounds d ->
  exists p1,
    for_range (main_go.flip_cell (Max (Bounds d)) pixels x) 0 (At d x <$> seqZ 0 H) p0
      = Some p1 /\
    Rect p1 = Bounds d /\
    (forall x' y', RGBAAt p0 x' y' = flipped d x' y' -> RGBAAt p1 x' y' = flipped d x' y') /\
    (forall y, 0 <= y < H -> RGBAAt p1 x y = flipped d x y).
Proof.
  intros Hx Hrect0. pose proof (decoded_range d Hd) as Hr. fold W H in Hr.
  set (Inv := fun (k : Z) (p : RGBAImage) =>
    Rect p = Bounds d /\
    (forall x' y', RGBAAt p0 x' y' = flipped d x' y' -> RGBAAt p x' y' = flipped d x' y') /\
    (forall y, 0 <= y < k -> RGBAAt p x y = flipped d x y)).
  destruct (for_range_inv (main_go.flip_cell (Max (Bounds d)) pixels x) Inv
              (At d x <$> seqZ 0 H) 0 p0) as (p1 & Hrun & Hrect & Hmono & Hdone).
  - intros j a p Hj (Hrect & Hmono & Hdone). rewrite Z.add_0_l.
    rewrite list_lookup_fmap in Hj.
    destruct (seqZ 0 H !! j) as [y |] eqn:Hy; [| done].
    apply lookup_seqZ in Hy as [-> Hlt]. injection Hj as <-.
    rewrite Z.add_0_l in *.
    unfold main_go.flip_cell. fold H.
    rewrite (int_sub_small H (Z.of_nat j)) by (unfold minInt, maxInt in *; lia).
    rewrite (int_sub_small (H - Z.of_nat j) 1) by (unfold minInt, maxInt in *; lia).
    assert (index pixels x = Some (At d x <$> seqZ 0 H)) as ->.
    { rewrite <- (Z2Nat.id x) at 1 by lia. apply index_Some.
      unfold pixels. rewrite list_lookup_fmap, lookup_seqZ_lt by lia.
      simpl. by rewrite Z2Nat.id by lia. }
    simpl.
    assert (index (At d x <$> seqZ 0 H) (H - Z.of_nat j - 1)
            = Some (At d x (H - 1 - Z.of_nat j))) as ->.
    { rewrite <- (Z2Nat.id (H - Z.of_nat j - 1)) at 1 by lia. apply index_Some.
      rewrite list_lookup_fmap, lookup_seqZ_lt by lia.
      simpl. f_equal. f_equal. lia. }
    simpl. eexists. split; [done |].
    destruct (Set_agree d Hd p x (Z.of_nat j) (At d x (H - 1 - Z.of_nat j)))
      as [Hfirst Hkeep1]; [done | by fold W | fold H; lia | done |].
    set (p' := Set_ p x (Z.of_nat j) (At d x (H - 1 - Z.of_nat j))) in *.
    destruct (Set_agree d Hd p' x (H - Z.of_nat j - 1) (At d x (Z.of_nat j)))
      as [Hsecond Hkeep2].
    { unfold p'. by rewrite Set_Rect. }
    { by fold W. }
    { fold H. lia. }
    { unfold flipped. fold H. f_equal. f_equal. lia. }
    split; [rewrite Set_Rect; unfold p'; by rewrite Set_Rect |].
    split; [intros x' y' Hxy; by apply Hkeep2, Hkeep1, Hmono |].
    intros y Hy.
    destruct (decide (y = Z.of_nat j)) as [-> | Hne].
    + by apply Hkeep2.
    + apply Hkeep2, Hkeep1, Hdone. lia.
  - split; [done |]. split; [done |]. intros y Hy. lia.
  - exists p1. split; [done |]. split; [done |]. split; [done |].
    by rewrite Z.add_0_l, length_fmap, length_seqZ, Z2Nat.id in Hdone by lia.
Qed.

Lemma flip_every_row_loop p0 :
  Rect p0 = Bounds d ->
  exists p1,
    main_go.flip_loop (Max (Bounds d)) pixels p0 = Some p1 /\
    Rect p1 = Bounds d /\
    (forall x y, 0 <= x < W -> 0 <= y < H -> RGBAAt p1 x y = flipped d x y).
Proof.
  intros Hrect0. pose proof (decoded_range d Hd) as Hr. fold W H in Hr.
  set (Inv := fun (k : Z) (p : RGBAImage) =>
    Rect p = Bounds d /\
    (forall x y, 0 <= x < k -> 0 <= y < H -> RGBAAt p x y = flipped d x y)).
  unfold main_go.flip_loop.
  destruct (for_range_inv
              (fun x row => for_range (main_go.flip_cell (Max (Bounds d)) pixels x) 0 row)
              Inv pixels 0 p0) as (p1 & Hrun & Hrect & Hdone).
  - intros j row p Hj (Hrect & Hdone). rewrite Z.add_0_l.
    unfold pixels in Hj. rewrite list_lookup_fmap in Hj.
    destruct (seqZ 0 W !! j) as [x |] eqn:Hx; [| done].
    apply lookup_seqZ in Hx as [-> Hlt]. injection Hj as <-.
    rewrite Z.add_0_l.
    destruct (flip_every_row_column (Z.of_nat j) p) as (p1 & Hrun & Hrect1 & Hmono & Hcol);
      [lia | done |].
    exists p1. split; [done |]. split; [done |].
    intros x y Hx Hy.
    destruct (decide (x = Z.of_nat j)) as [-> | Hne].
    + by apply Hcol.
    + apply Hmono, Hdone; lia.
  - split; [done |]. intros x y Hx. lia.
  - exists p1. split; [done |]. split; [done |].
    unfold pixels in Hdone.
    by rewrite Z.add_0_l, length_fmap, length_seqZ, Z2Nat.id in Hdone by lia.
Qed.

Lemma flip_false_decoded (i : TrackedImage) :
  data i = Some d ->
  exists p,
    main_go.flip i false = (set_data i (RGBA_Image p), Return None) /\
    Rect p = Bounds d /\
    (forall x y, 0 <= x < W -> 0 <= y < H -> RGBAAt p x y = flipped d x y).
Proof.
  intros Hi. unfold main_go.flip.
  rewrite Hi, (decoded_NewRGBA d Hd), (decoded_getPixels d Hd i Hi).
  destruct (flip_every_row_loop {| Pix := ∅; Rect := Bounds d |})
    as (p & Hrun & Hrect & Hall); [done |].
  fold W H pixels. rewrite Hrun. by exists p.
Qed.

End FlipEveryRow.

(** X10: on a loaded image the earlier [flip(false)], whose loop has no skip
    condition, and [flipVertically] both return [nil] and produce images
    with the same bounds, the same colour model and the same sample at every
    coordinate: despite its name and comments, [flip(false)] is a vertical
    flip, and the skip condition changes nothing in the result.  With
    [vertical = true], [flip] refuses before it even looks at the image. *)
Theorem flip_false_is_flipVertically (i : TrackedImage) (d : Image) :
  data i = Some d -> decoded d ->
  exists d1 d2,
    main_go.flip i false = (set_data i d1, Return None) /\
    flipVertically i = (set_data i d2, Return None) /\
    Bounds d1 = Bounds d2 /\ ColorModel d1 = ColorModel d2 /\
    (forall x y, At d1 x y = At d2 x y) /\
    main_go.flip i true = (i, Return (Some main_go.VerticalNotImplemented)).
Proof.
  intros Hi Hd.
  destruct (flip_false_decoded d Hd i Hi) as (p1 & Hrun1 & Hrect1 & Hpix1).
  destruct (flipVertically_decoded d Hd i Hi) as (p2 & Hrun2 & Hrect2 & Hpix2).
  exists (RGBA_Image p1), (RGBA_Image p2).
  split; [done |]. split; [done |].
  split; [simpl; congruence |]. split; [done |].
  split; [| done]. intros x y. simpl.
  destruct (In x y (Bounds d)) eqn:Hin.
  - apply (decoded_In_inv d x y Hd) in Hin as [Hx Hy].
    by rewrite Hpix1, Hpix2.
  - rewrite !RGBAAt_outside; [done | by rewrite Hrect2 | by rewrite Hrect1].
Qed.

Lemma flip_false_is_flipVertically_witness :
  exists d1 d2,
    main_go.flip (loaded_png gray2x2) false = (set_data (loaded_png gray2x2) d1, Return None) /\
    flipVertically (loaded_png gray2x2) = (set_data (loaded_png gray2x2) d2, Return None) /\
    Bounds d1 = Bounds d2 /\ ColorModel d1 = ColorModel d2 /\
    (forall x y, At d1 x y = At d2 x y) /\
    main_go.flip (loaded_png gray2x2) true
    = (loaded_png gray2x2, Return (Some main_go.VerticalNotImplemented)).
Proof.
  apply (flip_false_is_flipVertically (loaded_png gray2x2) gray2x2).
  - reflexivity.
  - decoded_by_evaluation.
Defined.

(** ** The whole run *)



(** X12: when "ss.png" cannot be opened, or opens but does not decode,
    [main] prints nothing, leaves the file system as it was (no output file
    is created) and ends in [log.Fatal]. *)
Theorem main_without_input (h : Host) (fs : FS) :
  (forall content, os_Open h fs "ss.png" = inr content ->
     exists err, image_Decode h content = inl err) ->
  exists err, main h fs = (fs, [], Fatal err).
Proof.
  intros Hbad. unfold main, load.
  destruct (os_Open h fs "ss.png") as [err | content]; [by exists err |].
  destruct (Hbad content eq_refl) as [err ->].
  unfold deferred_Close.
  destruct (close_err h "ss.png") as [cerr |]; [by exists cerr | by exists err].
Qed.

Lemma main_without_input_witness :
  exists err, main plain_host ∅ = (∅, [], Fatal err).
Proof.
  apply (main_without_input plain_host ∅).
  intros content Hopen. vm_compute in Hopen. discriminate.
Defined.



(** The run on a host where every call succeeds and "ss.png" decodes to the
    one-column, two-row image [opaque2]. *)
Example main_run :
  snd (fst (main plain_host (one_file "ss.png" [Byte.x00])))
  = ["Loaded image: ss.png"; "Format: png"; "Resolution: 1x2";
     "Vertically flipped image successfully"; "Saved image: ss_1.png";
     "All commands executed"] /\
  fst (fst (main plain_host (one_file "ss.png" [Byte.x00]))) !! "ss_1.png"
  = Some [Byte.x89; Byte.x50; Byte.x4e; Byte.x47].
Proof. by vm_compute. Qed.


